(** * web-stroker: the browser-automation QA scripts

    The repository holds five Playwright scripts that drive an external
    drawing application.  Each script is embedded as a function from the
    answers the page gives (a [Page]) to the outcome of the run and the
    sequence of calls the script issued (its trace).

    Calls of the automation library are taken to return.  The one failure
    the scripts themselves anticipate, an element read that raises (caught
    by the bare [except] of inspect_page.py), is part of the page's
    answers.  Python-level failures of the scripts' own expressions (a
    call that lacks a required argument, [None.replace], [float] on a
    malformed string) are modelled as uncaught exceptions. *)

From Stdlib Require Import List ZArith NArith QArith String Ascii Bool Lia.
Import ListNotations.
Local Open Scope string_scope.
Local Open Scope list_scope.

(** ** Python values *)

(** A Python [str]: a sequence of Unicode code points. *)
Definition codepoint := N.
Definition pystr := list codepoint.

(** An ASCII literal as a [str]. *)
Definition lit (s : string) : pystr :=
  map N_of_ascii (list_ascii_of_string s).

(** U+00B0 DEGREE SIGN, the one non-ASCII character the scripts search for. *)
Definition degree_sign : codepoint := 176%N.

(** [p] is a prefix of [s]. *)
Fixpoint starts_with (p s : pystr) : bool :=
  match p, s with
  | [], _ => true
  | _ :: _, [] => false
  | a :: p', b :: s' => N.eqb a b && starts_with p' s'
  end.

(** [needle in hay] on strings. *)
Fixpoint contains (needle hay : pystr) : bool :=
  starts_with needle hay ||
  match hay with
  | [] => false
  | _ :: rest => contains needle rest
  end.

(** [s.replace(c, new)] for a one-character [c]. *)
Definition replace_char (c : codepoint) (new s : pystr) : pystr :=
  flat_map (fun x => if N.eqb x c then new else [x]) s.

(** [s[:n]]. *)
Definition slice_to {A} (n : nat) (s : list A) : list A := firstn n s.

(** [enumerate(l)]. *)
Definition enumerate {A} (l : list A) : list (nat * A) :=
  combine (seq 0 (List.length l)) l.

(** What the scripts use of the Python runtime and do not define:
    floats with their arithmetic and comparison, [str.lower], [float(s)]
    ([None] stands for ValueError) and the values [page.evaluate] yields. *)
Class Runtime := {
  num : Type;
  of_int : Z -> num;
  fadd : num -> num -> num;
  fsub : num -> num -> num;
  fdiv : num -> num -> num;
  fle : num -> num -> bool;
  fle_of_int_refl : forall z, fle (of_int z) (of_int z) = true;
  py_lower : pystr -> pystr;
  py_float : pystr -> option num;
  jsval : Type
}.

(** ** The automation interface *)

(** Selectors, by the form of the literal the script passes. *)
Inductive selector :=
| Tag (t : string)                        (* "canvas", "button" *)
| HasText (t txt : string)                (* t:has-text("txt") *)
| AttrContainsCI (t attr v : string)      (* t[attr*="v" i] *)
| TextRegex (re : string).                (* text=/re/ *)

(** [page.locator(sel, has_text=...)], [.first], and the [nth] locators
    that [.all()] returns. *)
Inductive locator :=
| Locator (sel : selector) (has_text : option string)
| First (l : locator)
| Nth (l : locator) (i : nat).

Definition double_quote : string := String (ascii_of_nat 34) EmptyString.

(** The selector as the source spells it. *)
Definition selector_string (s : selector) : string :=
  match s with
  | Tag t => t
  | HasText t txt =>
      t ++ ":has-text(" ++ double_quote ++ txt ++ double_quote ++ ")"
  | AttrContainsCI t attr v =>
      t ++ "[" ++ attr ++ "*=" ++ double_quote ++ v ++ double_quote ++ " i]"
  | TextRegex re => "text=/" ++ re ++ "/"
  end.

Fixpoint locator_selector (l : locator) : selector :=
  match l with
  | Locator sel _ => sel
  | First l' => locator_selector l'
  | Nth l' _ => locator_selector l'
  end.

Fixpoint locator_has_text (l : locator) : option string :=
  match l with
  | Locator _ t => t
  | First l' => locator_has_text l'
  | Nth l' _ => locator_has_text l'
  end.

(** A Locator object defines neither [__bool__] nor [__len__]: it is truthy. *)
Definition locator_truthy (l : locator) : bool := true.

Inductive exn := PlaywrightError | TypeError | AttributeError | ValueError.

(** The answer of a call that may raise. *)
Inductive read (A : Type) :=
| Ok (a : A)
| Fails.
Arguments Ok {A} a.
Arguments Fails {A}.

Inductive result (A : Type) :=
| Returned (a : A)
| Raised (e : exn).
Arguments Returned {A} a.
Arguments Raised {A} e.

Section Interface.
Context {RT : Runtime}.

(** The dict [bounding_box()] returns. *)
Record Box := { box_x : num; box_y : num; box_width : num; box_height : num }.

(** One piece of a printed line: literal text or an interpolated value. *)
Inductive frag :=
| FLit (s : string)
| FStr (s : pystr)
| FOptStr (o : option pystr)
| FInt (z : Z)
| FNum (v : num)
| FBox (b : Box)
| FJs (v : jsval).

(** The calls a script issues, in the order it issues them.  [Sleep] is
    [time.sleep], in seconds. *)
Inductive event :=
| Launch (headless : bool)
| NewPage
| SetViewportSize (width height : Z)
| Goto (url : string)
| WaitForLoadState (state : string)
| WaitForTimeout (ms : Z)
| Sleep (seconds : Q)
| Screenshot (path : string) (full_page : option bool)
| Content
| Evaluate (js : string)
| PageClick (sel : selector)
| Click (l : locator)
| Count (l : locator)
| BoundingBox (l : locator)
| All (l : locator)
| TextContent (l : locator)
| GetAttribute (l : locator) (name : string)
| MouseMove (x y : num) (steps : option Z)
| MouseDown
| MouseUp
| MouseClick (pos : option (num * num)) (button : option string)
| Print (line : list frag)
| BrowserClose.

Definition trace := list event.

(** The page under test: the answer to the n-th call of each query. *)
Record Page := {
  bounding_box_ans : nat -> option Box;
  count_ans : nat -> Z;
  content_ans : nat -> pystr;
  all_ans : nat -> nat;
  text_content_ans : nat -> read (option pystr);
  get_attribute_ans : nat -> read (option pystr);
  evaluate_ans : nat -> jsval
}.

Definition is_bounding_box (e : event) : bool :=
  match e with BoundingBox _ => true | _ => false end.
Definition is_count (e : event) : bool :=
  match e with Count _ => true | _ => false end.
Definition is_content (e : event) : bool :=
  match e with Content => true | _ => false end.
Definition is_all (e : event) : bool :=
  match e with All _ => true | _ => false end.
Definition is_text_content (e : event) : bool :=
  match e with TextContent _ => true | _ => false end.
Definition is_get_attribute (e : event) : bool :=
  match e with GetAttribute _ _ => true | _ => false end.
Definition is_evaluate (e : event) : bool :=
  match e with Evaluate _ => true | _ => false end.
Definition is_close (e : event) : bool :=
  match e with BrowserClose => true | _ => false end.
Definition is_print (e : event) : bool :=
  match e with Print _ => true | _ => false end.
Definition is_screenshot (e : event) : bool :=
  match e with Screenshot _ _ => true | _ => false end.
Definition is_goto (e : event) : bool :=
  match e with Goto _ => true | _ => false end.
Definition is_launch (e : event) : bool :=
  match e with Launch _ => true | _ => false end.
Definition is_mouse (e : event) : bool :=
  match e with
  | MouseMove _ _ _ | MouseDown | MouseUp | MouseClick _ _ => true
  | _ => false
  end.
Definition is_wait (e : event) : bool :=
  match e with
  | WaitForLoadState _ | WaitForTimeout _ | Sleep _ => true
  | _ => false
  end.

(** How many calls of a kind the trace holds. *)
Definition calls (kind : event -> bool) (t : trace) : nat :=
  List.length (filter kind t).

(** ** Scripts: state passing over the trace, with exceptions *)

Definition M (A : Type) : Type := trace -> result A * trace.

Definition ret {A} (a : A) : M A := fun t => (Returned a, t).

Definition bind {A B} (m : M A) (f : A -> M B) : M B :=
  fun t =>
    match m t with
    | (Returned a, t') => f a t'
    | (Raised e, t') => (Raised e, t')
    end.

Definition raise {A} (e : exn) : M A := fun t => (Raised e, t).

(** [try: body / except: handler] with a bare [except]. *)
Definition try_except {A} (body handler : M A) : M A :=
  fun t =>
    match body t with
    | (Returned a, t') => (Returned a, t')
    | (Raised _, t') => handler t'
    end.

Definition emit (e : event) : M unit := fun t => (Returned tt, t ++ [e]).

(** A query: issue the call, take the page's next answer of that kind. *)
Definition ask {A} (kind : event -> bool) (ans : nat -> A) (e : event) : M A :=
  fun t => (Returned (ans (calls kind t)), t ++ [e]).

Definition ask_read {A} (kind : event -> bool) (ans : nat -> read A)
  (e : event) : M A :=
  fun t =>
    match ans (calls kind t) with
    | Ok a => (Returned a, t ++ [e])
    | Fails => (Raised PlaywrightError, t ++ [e])
    end.

End Interface.

Declare Scope script_scope.
Delimit Scope script_scope with script.
Notation "x <- m ;; k" := (bind m (fun x => k))
  (at level 61, m at next level, right associativity) : script_scope.
Notation "m ;; k" := (bind m (fun _ => k))
  (at level 61, right associativity) : script_scope.
Local Open Scope script_scope.

Section Api.
Context {RT : Runtime}.
Variable pg : Page.

Definition launch (headless : bool) : M unit := emit (Launch headless).
Definition new_page : M unit := emit NewPage.
Definition set_viewport_size (w h : Z) : M unit := emit (SetViewportSize w h).
Definition goto (url : string) : M unit := emit (Goto url).
Definition wait_for_load_state (s : string) : M unit := emit (WaitForLoadState s).
Definition wait_for_timeout (ms : Z) : M unit := emit (WaitForTimeout ms).
Definition sleep (s : Q) : M unit := emit (Sleep s).
Definition screenshot (path : string) (full_page : option bool) : M unit :=
  emit (Screenshot path full_page).
Definition print (line : list frag) : M unit := emit (Print line).
Definition browser_close : M unit := emit BrowserClose.
Definition page_click (sel : selector) : M unit := emit (PageClick sel).
Definition click (l : locator) : M unit := emit (Click l).
Definition mouse_move (x y : num) (steps : option Z) : M unit :=
  emit (MouseMove x y steps).
Definition mouse_down : M unit := emit MouseDown.
Definition mouse_up : M unit := emit MouseUp.
Definition mouse_click (pos : option (num * num)) (button : option string)
  : M unit := emit (MouseClick pos button).

(** [page.mouse.click()] with no argument: [Mouse.click(x, y, ...)] requires
    both coordinates, so Python raises TypeError at the call and nothing is
    sent to the browser. *)
Definition mouse_click_without_point : M unit := raise TypeError.

Definition content : M pystr := ask is_content (content_ans pg) Content.
Definition evaluate (js : string) : M jsval :=
  ask is_evaluate (evaluate_ans pg) (Evaluate js).
Definition count (l : locator) : M Z := ask is_count (count_ans pg) (Count l).
Definition bounding_box (l : locator) : M (option Box) :=
  ask is_bounding_box (bounding_box_ans pg) (BoundingBox l).

(** [l.all()]: one [nth] locator per matching element. *)
Definition all (l : locator) : M (list locator) :=
  n <- ask is_all (all_ans pg) (All l) ;;
  ret (map (Nth l) (seq 0 n)).

Definition text_content (l : locator) : M (option pystr) :=
  ask_read is_text_content (text_content_ans pg) (TextContent l).
Definition get_attribute (l : locator) (name : string) : M (option pystr) :=
  ask_read is_get_attribute (get_attribute_ans pg) (GetAttribute l name).

(** [for x in l: body x]. *)
Fixpoint for_each {A} (l : list A) (body : A -> M unit) : M unit :=
  match l with
  | [] => ret tt
  | x :: rest => body x ;; for_each rest body
  end.

Definition run {A} (m : M A) : result A * trace := m [].

End Api.

Definition newline : string := String (ascii_of_nat 10) EmptyString.

(** ** inspect_page.py *)

Module InspectPage.
Section Script.
Context {RT : Runtime}.
Variable pg : Page.

(** The body of the loop over [enumerate(buttons[:20])]. *)
Definition describe_button (ib : nat * locator) : M unit :=
  let '(i, btn) := ib in
  try_except
    (text <- text_content pg btn ;;
     aria_label <- get_attribute pg btn "aria-label" ;;
     print [FLit "Button "; FInt (Z.of_nat i); FLit ": text='"; FOptStr text;
            FLit "' aria-label='"; FOptStr aria_label; FLit "'"])
    (print [FLit "Button "; FInt (Z.of_nat i); FLit ": (error reading)"]).

Definition main : M unit :=
  launch true ;;
  new_page ;;
  set_viewport_size 1400 900 ;;
  goto "http://localhost:5173" ;;
  wait_for_load_state "networkidle" ;;
  print [FLit "=== Page Structure ==="] ;;
  c <- content pg ;;
  print [FStr (slice_to 2000 c)] ;;
  print [FLit (newline ++ "=== Buttons on page ===")] ;;
  buttons <- all pg (Locator (Tag "button") None) ;;
  for_each (enumerate (slice_to 20 buttons)) describe_button ;;
  browser_close.

End Script.
End InspectPage.

(** ** qa_test_angle.py *)

Module QaTestAngle.
Section Script.
Context {RT : Runtime}.
Variable pg : Page.

Definition main : M unit :=
  launch true ;;
  new_page ;;
  goto "http://localhost:5176" ;;
  wait_for_load_state "networkidle" ;;
  screenshot "/tmp/angle_test_1_initial.png" (Some false) ;;
  (* Step 1 *)
  print [FLit "Step 1: Clicking on Digital mode button..."] ;;
  let digital_button := First (Locator (HasText "button" "Digital") None) in
  (if locator_truthy digital_button
   then click digital_button ;; wait_for_timeout 500
   else ret tt) ;;
  (* Step 2 *)
  print [FLit "Step 2: Selecting Line tool..."] ;;
  let line_button := First (Locator (HasText "button" "Line") None) in
  (if locator_truthy line_button
   then click line_button ;; wait_for_timeout 300
   else ret tt) ;;
  (* Step 3 *)
  print [FLit "Step 3: Drawing first line..."] ;;
  let canvas := First (Locator (Tag "canvas") None) in
  (if locator_truthy canvas then
     box <- bounding_box pg canvas ;;
     match box with
     | Some box =>
         let x1 := fadd (box_x box) (of_int 100) in
         let y1 := fadd (box_y box) (of_int 200) in
         let x2 := fadd (box_x box) (of_int 300) in
         let y2 := fadd (box_y box) (of_int 200) in
         mouse_move x1 y1 None ;;
         mouse_down ;;
         mouse_move x2 y2 None ;;
         mouse_up ;;
         wait_for_timeout 300 ;;
         mouse_click (Some (x1, y1)) (Some "right") ;;
         wait_for_timeout 500
     | None => ret tt
     end
   else ret tt) ;;
  screenshot "/tmp/angle_test_2_first_line.png" (Some false) ;;
  (* Step 4 *)
  print [FLit "Step 4: Drawing second line..."] ;;
  (if locator_truthy canvas then
     box <- bounding_box pg canvas ;;
     match box with
     | Some box =>
         let x1 := fadd (box_x box) (of_int 200) in
         let y1 := fadd (box_y box) (of_int 100) in
         let x2 := fadd (box_x box) (of_int 200) in
         let y2 := fadd (box_y box) (of_int 300) in
         mouse_move x1 y1 None ;;
         mouse_down ;;
         mouse_move x2 y2 None ;;
         mouse_up ;;
         wait_for_timeout 300 ;;
         mouse_click (Some (x1, y1)) (Some "right") ;;
         wait_for_timeout 500
     | None => ret tt
     end
   else ret tt) ;;
  screenshot "/tmp/angle_test_3_second_line.png" (Some false) ;;
  (* Step 5 *)
  print [FLit "Step 5: Switching to Angle measurement tool..."] ;;
  let measure_buttons := Locator (HasText "button" "Measure") None in
  n <- count pg measure_buttons ;;
  (if (n >? 0)%Z
   then click (First measure_buttons) ;; wait_for_timeout 300
   else ret tt) ;;
  let angle_buttons := Locator (HasText "button" "Angle") None in
  n <- count pg angle_buttons ;;
  (if (n >? 0)%Z
   then click (First angle_buttons) ;; wait_for_timeout 500
   else ret tt) ;;
  screenshot "/tmp/angle_test_4_angle_tool.png" (Some false) ;;
  (* Step 6 *)
  print [FLit "Step 6: Clicking on first line to select it..."] ;;
  (if locator_truthy canvas then
     box <- bounding_box pg canvas ;;
     match box with
     | Some box =>
         let x := fadd (box_x box) (of_int 200) in
         let y := fadd (box_y box) (of_int 200) in
         mouse_click (Some (x, y)) None ;;
         wait_for_timeout 500
     | None => ret tt
     end
   else ret tt) ;;
  screenshot "/tmp/angle_test_5_first_selected.png" (Some false) ;;
  (* Step 7 *)
  print [FLit "Step 7: Clicking on second line to complete angle measurement..."] ;;
  (if locator_truthy canvas then
     box <- bounding_box pg canvas ;;
     match box with
     | Some box =>
         let x := fadd (box_x box) (of_int 200) in
         let y := fadd (box_y box) (of_int 200) in
         mouse_click (Some (x, y)) None ;;
         wait_for_timeout 500
     | None => ret tt
     end
   else ret tt) ;;
  screenshot "/tmp/angle_test_6_angle_measured.png" (Some false) ;;
  (* Step 8 *)
  print [FLit "Step 8: Right-clicking to cancel measurement..."] ;;
  (if locator_truthy canvas then
     box <- bounding_box pg canvas ;;
     match box with
     | Some box =>
         let x := fadd (box_x box) (of_int 250) in
         let y := fadd (box_y box) (of_int 250) in
         mouse_click (Some (x, y)) (Some "right") ;;
         wait_for_timeout 500
     | None => ret tt
     end
   else ret tt) ;;
  screenshot "/tmp/angle_test_7_after_rightclick.png" (Some false) ;;
  (* Step 9 *)
  print [FLit "Step 9: Testing chaining - selecting first line again..."] ;;
  (if locator_truthy canvas then
     box <- bounding_box pg canvas ;;
     match box with
     | Some box =>
         let x := fadd (box_x box) (of_int 200) in
         let y := fadd (box_y box) (of_int 200) in
         mouse_click (Some (x, y)) None ;;
         wait_for_timeout 500
     | None => ret tt
     end
   else ret tt) ;;
  screenshot "/tmp/angle_test_8_chaining.png" (Some false) ;;
  (* Step 10 *)
  print [FLit "Step 10: Checking console logs..."] ;;
  logs <- evaluate pg "() => window.__consoleLogs || []" ;;
  print [FLit "Console logs: "; FJs logs] ;;
  print [FLit (newline ++ "QA Testing Complete!")] ;;
  print [FLit "Screenshots saved to /tmp/"] ;;
  browser_close.

End Script.
End QaTestAngle.

(** ** test_angle_measurement.py *)

Module TestAngleMeasurement.
Section Script.
Context {RT : Runtime}.
Variable pg : Page.

(** The test on the page content that decides which line is printed. *)
Definition angle_displayed (content : pystr) : bool :=
  contains (lit "angle:") (py_lower content) || contains [degree_sign] content.

Definition test_angle_measurement : M bool :=
  launch false ;;
  new_page ;;
  goto "http://localhost:5173" ;;
  wait_for_load_state "networkidle" ;;
  print [FLit "✓ Page loaded"] ;;
  let canvas := Locator (Tag "canvas") None in
  canvas_box <- bounding_box pg canvas ;;
  match canvas_box with
  | None =>
      print [FLit "✗ Canvas not found"] ;;
      browser_close ;;
      ret false
  | Some canvas_box =>
      print [FLit "✓ Canvas found at "; FBox canvas_box] ;;
      click (Locator (HasText "button" "digital") None) ;;
      sleep 0.5 ;;
      click (Locator (HasText "button" "line") None) ;;
      sleep 0.3 ;;
      let canvas_x :=
        fadd (box_x canvas_box) (fdiv (box_width canvas_box) (of_int 2)) in
      let canvas_y :=
        fadd (box_y canvas_box) (fdiv (box_height canvas_box) (of_int 2)) in
      (* first line: horizontal *)
      mouse_click (Some (fsub canvas_x (of_int 100), canvas_y)) None ;;
      sleep 0.2 ;;
      mouse_click (Some (fadd canvas_x (of_int 100), canvas_y)) None ;;
      sleep 0.2 ;;
      mouse_click (Some (fsub canvas_x (of_int 100), canvas_y)) None ;;
      sleep 0.3 ;;
      (* second line: vertical *)
      mouse_click (Some (canvas_x, fsub canvas_y (of_int 100))) None ;;
      sleep 0.2 ;;
      mouse_click (Some (canvas_x, fadd canvas_y (of_int 100))) None ;;
      sleep 0.2 ;;
      mouse_click (Some (canvas_x, fsub canvas_y (of_int 100))) None ;;
      sleep 0.3 ;;
      print [FLit "✓ Lines drawn"] ;;
      click (Locator (HasText "button" "measure") None) ;;
      sleep 0.3 ;;
      let angle_button := Locator (Tag "button") (Some "angle") in
      n <- count pg angle_button ;;
      if (n >? 0)%Z then
        click angle_button ;;
        sleep 0.3 ;;
        print [FLit "✓ Angle tool selected"] ;;
        screenshot "/tmp/before_angle.png" (Some false) ;;
        mouse_click (Some (fsub canvas_x (of_int 50), canvas_y)) None ;;
        sleep 0.5 ;;
        screenshot "/tmp/after_first_click.png" (Some false) ;;
        mouse_click (Some (canvas_x, fsub canvas_y (of_int 50))) None ;;
        sleep 0.5 ;;
        screenshot "/tmp/after_second_click.png" (Some false) ;;
        print [FLit "✓ Screenshots taken: before_angle, after_first_click, after_second_click"] ;;
        wait_for_timeout 500 ;;
        content <- content pg ;;
        (if angle_displayed content
         then print [FLit "✓ Angle measurement appears to be displayed"]
         else print [FLit "⚠ Angle measurement text not clearly visible in content"]) ;;
        browser_close ;;
        ret true
      else
        print [FLit "✗ Angle tool button not found"] ;;
        browser_close ;;
        ret false
  end.

(** The [if __name__ == "__main__"] block. *)
Definition main : M unit :=
  success <- test_angle_measurement ;;
  if (success : bool)
  then print [FLit (newline ++ "✓ Test completed successfully")]
  else print [FLit (newline ++ "✗ Test failed")].

End Script.
End TestAngleMeasurement.

(** ** test_angle_qa.py *)

Module TestAngleQa.
Section Script.
Context {RT : Runtime}.
Variable pg : Page.

(** The dict [find_canvas_center] returns. *)
Record CanvasInfo := { ci_x : num; ci_y : num; ci_canvas : locator }.

Definition take_screenshot (name : string) : M unit :=
  let path := ("/tmp/angle_test_" ++ name ++ ".png")%string in
  screenshot path (Some true) ;;
  print [FLit "Screenshot saved: "; FLit path].

Definition find_canvas_center : M (option CanvasInfo) :=
  let canvas := First (Locator (Tag "canvas") None) in
  box <- bounding_box pg canvas ;;
  match box with
  | Some box =>
      ret (Some {| ci_x := fadd (box_x box) (fdiv (box_width box) (of_int 2));
                   ci_y := fadd (box_y box) (fdiv (box_height box) (of_int 2));
                   ci_canvas := canvas |})
  | None => ret None
  end.

Definition draw_line (x1 y1 x2 y2 : num) (canvas_info : CanvasInfo) : M unit :=
  let canvas := ci_canvas canvas_info in
  mouse_move x1 y1 None ;;
  mouse_down ;;
  sleep 0.1 ;;
  mouse_move x2 y2 (Some 10%Z) ;;
  sleep 0.2 ;;
  mouse_up ;;
  sleep 0.3.

Definition acute_line (angle_val : num) : list frag :=
  [FLit "✓ Acute angle: "; FNum angle_val; FLit "°"].

Definition not_acute_line (angle_val : num) : list frag :=
  [FLit "✗ NOT acute: "; FNum angle_val; FLit "° (should be ≤ 90°)"].

Definition test_angle_measurement : M unit :=
  launch false ;;
  new_page ;;
  set_viewport_size 1400 900 ;;
  goto "http://localhost:5173" ;;
  wait_for_load_state "networkidle" ;;
  print [FLit (newline ++ "=== Test 1: Intersecting Segments - Arc follows mouse ===")] ;;
  canvas_info <- find_canvas_center ;;
  match canvas_info with
  | None =>
      print [FLit "ERROR: Could not find canvas"] ;;
      browser_close ;;
      ret tt
  | Some canvas_info =>
      let cx := ci_x canvas_info in
      let cy := ci_y canvas_info in
      print [FLit "Switching to measure tool..."] ;;
      page_click (HasText "button" "Measure") ;;
      sleep 0.3 ;;
      print [FLit "Selecting angle measurement..."] ;;
      page_click (AttrContainsCI "button" "aria-label" "angle") ;;
      sleep 0.3 ;;
      print [FLit "Drawing first line (vertical-ish)..."] ;;
      draw_line (fsub cx (of_int 100)) (fsub cy (of_int 150))
                (fsub cx (of_int 100)) (fadd cy (of_int 150)) canvas_info ;;
      take_screenshot "01_first_line" ;;
      print [FLit "Drawing second line (crossing first)..."] ;;
      draw_line (fsub cx (of_int 200)) cy (fadd cx (of_int 200)) cy canvas_info ;;
      take_screenshot "02_two_lines" ;;
      print [FLit (newline ++ "Testing arc appears on mouse side...")] ;;
      print [FLit "Moving mouse to LEFT side of intersection..."] ;;
      mouse_move (fsub cx (of_int 150)) cy None ;;
      sleep 0.5 ;;
      take_screenshot "03_arc_on_left" ;;
      print [FLit "Moving mouse to RIGHT side of intersection..."] ;;
      mouse_move (fadd cx (of_int 150)) cy None ;;
      sleep 0.5 ;;
      take_screenshot "04_arc_on_right" ;;
      print [FLit "Moving mouse ABOVE intersection..."] ;;
      mouse_move (fsub cx (of_int 100)) (fsub cy (of_int 100)) None ;;
      sleep 0.5 ;;
      take_screenshot "05_arc_above" ;;
      print [FLit "Moving mouse BELOW intersection..."] ;;
      mouse_move (fsub cx (of_int 100)) (fadd cy (of_int 100)) None ;;
      sleep 0.5 ;;
      take_screenshot "06_arc_below" ;;
      print [FLit (newline ++ "=== Test 2: Arc selection by clicking ===")] ;;
      print [FLit "Clicking on left side to select second line..."] ;;
      mouse_move (fsub cx (of_int 150)) cy None ;;
      sleep 0.3 ;;
      mouse_click_without_point ;;
      sleep 0.5 ;;
      take_screenshot "07_selected_left" ;;
      print [FLit "Checking for angle label..."] ;;
      let angle_text := First (Locator (TextRegex "\d+\.\d+°") None) in
      (if locator_truthy angle_text then
         shown <- text_content pg angle_text ;;
         print [FLit "Found angle label: "; FOptStr shown] ;;
         angle_str <- text_content pg angle_text ;;
         match angle_str with
         | None => raise AttributeError
         | Some angle_str =>
             match py_float (replace_char degree_sign [] angle_str) with
             | None => raise ValueError
             | Some angle_val =>
                 if fle angle_val (of_int 90)
                 then print (acute_line angle_val)
                 else print (not_acute_line angle_val)
             end
         end
       else print [FLit "No angle label found"]) ;;
      print [FLit (newline ++ "=== Test 3: Line Chaining ===")] ;;
      print [FLit "Drawing third line for chaining test..."] ;;
      draw_line cx (fsub cy (of_int 200)) cx (fadd cy (of_int 200)) canvas_info ;;
      sleep 0.5 ;;
      take_screenshot "08_after_third_line" ;;
      print [FLit (newline ++ "All tests completed!")] ;;
      sleep 2 ;;
      browser_close
  end.

(** The [if __name__ == "__main__"] block. *)
Definition main : M unit := test_angle_measurement.

End Script.
End TestAngleQa.

(** ** test_angle_simple.py *)

Module TestAngleSimple.
Section Script.
Context {RT : Runtime}.
Variable pg : Page.

Definition test_angle : M unit :=
  launch false ;;
  new_page ;;
  set_viewport_size 1400 900 ;;
  goto "http://localhost:5173" ;;
  wait_for_load_state "networkidle" ;;
  print [FLit "Page loaded"] ;;
  sleep 1 ;;
  buttons <- all pg (Locator (Tag "button") None) ;;
  print [FLit "Found "; FInt (Z.of_nat (List.length buttons)); FLit " buttons"] ;;
  let measure_btn := First (Locator (HasText "button" "Measure") None) in
  (if locator_truthy measure_btn then
     print [FLit "Found Measure button"] ;;
     click measure_btn ;;
     sleep 0.5
   else ret tt) ;;
  sleep 0.5 ;;
  buttons_after <- all pg (Locator (Tag "button") None) ;;
  print [FLit "After clicking Measure: ";
         FInt (Z.of_nat (List.length buttons_after)); FLit " buttons"] ;;
  angle_buttons <- all pg (Locator (HasText "button" "Angle") None) ;;
  print [FLit "Found "; FInt (Z.of_nat (List.length angle_buttons));
         FLit " angle buttons"] ;;
  match angle_buttons with
  | first_button :: _ =>
      click first_button ;;
      print [FLit "Clicked angle button"] ;;
      sleep 0.5
  | [] => ret tt
  end ;;
  screenshot "/tmp/after_angle_select.png" None ;;
  print [FLit "Screenshot saved"] ;;
  let canvas := First (Locator (Tag "canvas") None) in
  box <- bounding_box pg canvas ;;
  match box with
  | Some box =>
      let cx := fadd (box_x box) (fdiv (box_width box) (of_int 2)) in
      let cy := fadd (box_y box) (fdiv (box_height box) (of_int 2)) in
      print [FLit "Canvas center: ("; FNum cx; FLit ", "; FNum cy; FLit ")"] ;;
      print [FLit "Drawing first line..."] ;;
      mouse_move (fsub cx (of_int 100)) (fsub cy (of_int 150)) None ;;
      mouse_down ;;
      mouse_move (fsub cx (of_int 100)) (fadd cy (of_int 150)) (Some 10%Z) ;;
      mouse_up ;;
      sleep 0.5 ;;
      screenshot "/tmp/first_line.png" None ;;
      print [FLit "Drawing second line..."] ;;
      mouse_move (fsub cx (of_int 200)) cy None ;;
      mouse_down ;;
      mouse_move (fadd cx (of_int 200)) cy (Some 10%Z) ;;
      mouse_up ;;
      sleep 0.5 ;;
      screenshot "/tmp/second_line.png" None ;;
      print [FLit "Testing arc movement..."] ;;
      mouse_move (fsub cx (of_int 150)) cy None ;;
      sleep 0.3 ;;
      screenshot "/tmp/arc_left.png" None ;;
      mouse_move (fadd cx (of_int 150)) cy None ;;
      sleep 0.3 ;;
      screenshot "/tmp/arc_right.png" None
  | None => ret tt
  end ;;
  print [FLit "Test complete!"] ;;
  sleep 2 ;;
  browser_close.

(** The [if __name__ == "__main__"] block. *)
Definition main : M unit := test_angle.

End Script.
End TestAngleSimple.

(** ** The five scripts together *)

Inductive script :=
| inspect_page
| qa_test_angle
| test_angle_measurement
| test_angle_qa
| test_angle_simple.

Definition all_scripts : list script :=
  [inspect_page; qa_test_angle; test_angle_measurement; test_angle_qa;
   test_angle_simple].

Section Scripts.
Context {RT : Runtime}.

(** Running a file as a program ([python file.py]) against a page. *)
Definition run_script (s : script) (pg : Page) : result unit * trace :=
  match s with
  | inspect_page => run (InspectPage.main pg)
  | qa_test_angle => run (QaTestAngle.main pg)
  | test_angle_measurement => run (TestAngleMeasurement.main pg)
  | test_angle_qa => run (TestAngleQa.main pg)
  | test_angle_simple => run (TestAngleSimple.main pg)
  end.

Definition script_trace (s : script) (pg : Page) : trace :=
  snd (run_script s pg).

End Scripts.

(** ** A concrete runtime and concrete pages, for running the scripts *)

Module Sample.

(** ASCII letters only; enough for the pages below. *)
Definition ascii_lower (s : pystr) : pystr :=
  map (fun c => if (N.leb 65 c && N.leb c 90)%bool then (c + 32)%N else c) s.

Definition digit_of (c : codepoint) : option Z :=
  if (N.leb 48 c && N.leb c 57)%bool then Some (Z.of_N c - 48)%Z else None.

(** The value of a non-empty run of decimal digits. *)
Fixpoint digits_value (acc : Z) (s : pystr) : option Z :=
  match s with
  | [] => Some acc
  | c :: rest =>
      match digit_of c with
      | Some d => digits_value (10 * acc + d)%Z rest
      | None => None
      end
  end.

Fixpoint split_at_dot (s : pystr) : pystr * option pystr :=
  match s with
  | [] => ([], None)
  | c :: rest =>
      if N.eqb c 46 then ([], Some rest)
      else let '(a, b) := split_at_dot rest in (c :: a, b)
  end.

(** [float(s)] on plain decimals [ddd] and [ddd.ddd]. *)
Definition decimal (s : pystr) : option Q :=
  match split_at_dot s with
  | ([], _) => None
  | (ip, None) =>
      match digits_value 0 ip with
      | Some n => Some (inject_Z n)
      | None => None
      end
  | (ip, Some fp) =>
      match digits_value 0 (ip ++ fp) with
      | Some n => Some (Qred (Qmake n (Pos.pow 10 (Pos.of_nat (List.length fp)))))
      | None => None
      end
  end.

#[export] Instance rational_runtime : Runtime := {|
  num := Q;
  of_int := inject_Z;
  fadd := Qplus;
  fsub := Qminus;
  fdiv := Qdiv;
  fle := Qle_bool;
  fle_of_int_refl := fun z => proj2 (Qle_bool_iff _ _) (Qle_refl _);
  py_lower := ascii_lower;
  py_float := decimal;
  jsval := list pystr
|}.

Definition box : Box :=
  {| box_x := 10; box_y := 20; box_width := 1400; box_height := 900 |}.

(** A page showing the application with an angle label. *)
Definition app_page (label : pystr) : Page :=
  {| bounding_box_ans := fun _ => Some box;
     count_ans := fun _ => 1%Z;
     content_ans := fun _ => lit "<div>Angle: " ++ label ++ lit "</div>";
     all_ans := fun _ => 3%nat;
     text_content_ans := fun _ => Ok (Some label);
     get_attribute_ans := fun _ => Ok None;
     evaluate_ans := fun _ => [] |}.

(** A page with no canvas, no buttons and no text. *)
Definition blank_page : Page :=
  {| bounding_box_ans := fun _ => None;
     count_ans := fun _ => 0%Z;
     content_ans := fun _ => [];
     all_ans := fun _ => 0%nat;
     text_content_ans := fun _ => Fails;
     get_attribute_ans := fun _ => Fails;
     evaluate_ans := fun _ => [] |}.

(** The application with the canvas in place but no angle button. *)
Definition no_angle_button_page : Page :=
  {| bounding_box_ans := fun _ => Some box;
     count_ans := fun _ => 0%Z;
     content_ans := fun _ => [];
     all_ans := fun _ => 0%nat;
     text_content_ans := fun _ => Fails;
     get_attribute_ans := fun _ => Fails;
     evaluate_ans := fun _ => [] |}.

(** Plane geometry on rationals, to read the segments a run drags. *)
Definition point := (Q * Q)%type.
Definition segment := (point * point)%type.

Definition cross (o a b : point) : Q :=
  (fst a - fst o) * (snd b - snd o) - (snd a - snd o) * (fst b - fst o).

Definition side (o a b : point) : comparison := Qcompare (cross o a b) 0.

Definition parallel (s1 s2 : segment) : bool :=
  let d1 := (fst (snd s1) - fst (fst s1), snd (snd s1) - snd (fst s1)) in
  let d2 := (fst (snd s2) - fst (fst s2), snd (snd s2) - snd (fst s2)) in
  Qeq_bool (fst d1 * snd d2 - snd d1 * fst d2) 0.

Definition between (a b c : Q) : bool :=
  (Qle_bool a c && Qle_bool c b) || (Qle_bool b c && Qle_bool c a).

(** [c], known to lie on the line through [a] and [b], lies on the segment. *)
Definition within (a b c : point) : bool :=
  between (fst a) (fst b) (fst c) && between (snd a) (snd b) (snd c).

Definition comparison_eqb (x y : comparison) : bool :=
  match x, y with
  | Eq, Eq | Lt, Lt | Gt, Gt => true
  | _, _ => false
  end.

(** The two segments have a point in common. *)
Definition intersect (s1 s2 : segment) : bool :=
  let '(p1, q1) := s1 in
  let '(p2, q2) := s2 in
  let o1 := side p1 q1 p2 in
  let o2 := side p1 q1 q2 in
  let o3 := side p2 q2 p1 in
  let o4 := side p2 q2 q1 in
  (negb (comparison_eqb o1 o2) && negb (comparison_eqb o3 o4))
  || (comparison_eqb o1 Eq && within p1 q1 p2)
  || (comparison_eqb o2 Eq && within p1 q1 q2)
  || (comparison_eqb o3 Eq && within p2 q2 p1)
  || (comparison_eqb o4 Eq && within p2 q2 q1).

(** The case the docstring of test_angle_qa.py calls "non-intersecting
    segments": two segments that are not parallel and do not meet. *)
Definition apart (s1 s2 : segment) : bool :=
  negb (parallel s1 s2) && negb (intersect s1 s2).

Fixpoint pairs {A} (l : list A) : list (A * A) :=
  match l with
  | [] => []
  | x :: rest => map (pair x) rest ++ pairs rest
  end.

Definition label_45 : pystr := lit "45.0" ++ [degree_sign].
Definition label_90 : pystr := lit "90.0" ++ [degree_sign].

End Sample.

(** ** Vocabulary of the properties *)

Section Vocabulary.
Context {RT : Runtime}.

Definition is_some {A} (o : option A) : bool :=
  match o with Some _ => true | None => false end.

(** The literal arguments of [time.sleep] and [page.wait_for_timeout]
    across the five files. *)
Definition sleep_literals : list Q := [0.1; 0.2; 0.3; 0.5; 1; 2]%Q.
Definition timeout_literals : list Z := [300; 500]%Z.

(** A waiting call with one of the literal durations, or a wait for the
    load state; any call that does not wait passes. *)
Definition fixed_wait (e : event) : Prop :=
  match e with
  | Sleep d => In d sleep_literals
  | WaitForTimeout ms => In ms timeout_literals
  | WaitForLoadState st => st = "networkidle"
  | _ => True
  end.

(** The literal offsets the scripts add to or subtract from a coordinate. *)
Definition offsets : list Z := [50; 100; 150; 200; 250; 300]%Z.

(** [c], [c + k] or [c - k] for a literal [k]. *)
Inductive about (c : num) : num -> Prop :=
| about_at : about c c
| about_plus (k : Z) : In k offsets -> about c (fadd c (of_int k))
| about_minus (k : Z) : In k offsets -> about c (fsub c (of_int k)).

Definition center_x (b : Box) : num :=
  fadd (box_x b) (fdiv (box_width b) (of_int 2)).
Definition center_y (b : Box) : num :=
  fadd (box_y b) (fdiv (box_height b) (of_int 2)).

(** The point is the box origin plus literal offsets. *)
Definition from_origin (b : Box) (x y : num) : Prop :=
  exists dx dy, In dx offsets /\ In dy offsets /\
    x = fadd (box_x b) (of_int dx) /\ y = fadd (box_y b) (of_int dy).

(** The point is the box centre, moved by literal offsets. *)
Definition from_center (b : Box) (x y : num) : Prop :=
  about (center_x b) x /\ about (center_y b) y.

(** The point is computed from a bounding box the page answered with. *)
Definition from_box (pg : Page) (x y : num) : Prop :=
  exists n b, bounding_box_ans pg n = Some b /\
    (from_origin b x y \/ from_center b x y).

(** Every coordinate a pointer call carries is computed from a bounding
    box; calls that carry none pass. *)
Definition pointer_from_box (pg : Page) (e : event) : Prop :=
  match e with
  | MouseMove x y _ => from_box pg x y
  | MouseClick (Some (x, y)) _ => from_box pg x y
  | _ => True
  end.

(** A line made of the one literal [msg]. *)
Definition prints (msg : string) (e : event) : bool :=
  match e with
  | Print [FLit s] => String.eqb s msg
  | _ => false
  end.

(** The run printed the line [msg]. *)
Definition reports (msg : string) (t : trace) : bool := existsb (prints msg) t.

(** The two lines by which test_angle_qa.py reports its verdict on the
    angle. *)
Definition is_verdict (e : event) : bool :=
  match e with
  | Print (FLit s :: _) =>
      String.eqb s "✓ Acute angle: " || String.eqb s "✗ NOT acute: "
  | _ => false
  end.

(** The index a line of the form "Button i: ..." describes. *)
Definition button_line (e : event) : option Z :=
  match e with
  | Print (FLit s :: FInt i :: _) =>
      if String.eqb s "Button " then Some i else None
  | _ => None
  end.

(** One of the locators [page.locator("button").all()] returns. *)
Definition is_nth_button (l : locator) : bool :=
  match l with
  | Nth (Locator (Tag t) None) _ => String.eqb t "button"
  | _ => false
  end.

(** The calls of the loop of inspect_page.py: reads of a button, and lines. *)
Definition is_button_report (e : event) : bool :=
  match e with
  | TextContent l => is_nth_button l
  | GetAttribute l name => is_nth_button l && String.eqb name "aria-label"
  | Print _ => true
  | _ => false
  end.

(** What inspect_page.py does before its loop. *)
Definition inspect_opening (pg : Page) : trace :=
  [Launch true; NewPage; SetViewportSize 1400 900;
   Goto "http://localhost:5173"; WaitForLoadState "networkidle";
   Print [FLit "=== Page Structure ==="];
   Content;
   Print [FStr (slice_to 2000 (content_ans pg 0))];
   Print [FLit (newline ++ "=== Buttons on page ===")];
   All (Locator (Tag "button") None)].

(** *** The shape of a run *)

(** What a call locates: the selector and the [has_text] filter. *)
Definition event_target (e : event) : option (selector * option string) :=
  match e with
  | PageClick sel => Some (sel, None)
  | Click l | Count l | BoundingBox l | All l | TextContent l
  | GetAttribute l _ => Some (locator_selector l, locator_has_text l)
  | _ => None
  end.

Definition is_locate (e : event) : bool := is_some (event_target e).

(** The call locates by a text or an attribute, not by the tag alone. *)
Definition locates_by_text_or_attribute (e : event) : bool :=
  match event_target e with
  | Some (Tag _, has_text) => is_some has_text
  | Some (_, _) => true
  | None => false
  end.

(** The six steps the specification gives as the common shape of the
    scripts, on the calls of one run. *)
Definition six_step_shape (t : trace) : bool :=
  existsb is_launch t && existsb is_goto t
  && existsb locates_by_text_or_attribute t && existsb is_mouse t
  && existsb is_screenshot t && existsb is_print t && existsb is_close t.

Definition script_headless (s : script) : bool :=
  match s with
  | inspect_page | qa_test_angle => true
  | test_angle_measurement | test_angle_qa | test_angle_simple => false
  end.

(** The URL each file passes to [page.goto]. *)
Definition script_url (s : script) : string :=
  match s with
  | qa_test_angle => "http://localhost:5176"
  | inspect_page | test_angle_measurement | test_angle_qa
  | test_angle_simple => "http://localhost:5173"
  end.

(** The runs in which a script locates an element by a text or an
    attribute. *)
Definition locates_by_label (s : script) (pg : Page) : bool :=
  match s with
  | inspect_page => false
  | qa_test_angle | test_angle_simple => true
  | test_angle_measurement | test_angle_qa => is_some (bounding_box_ans pg 0)
  end.

(** The runs in which a script issues pointer calls. *)
Definition simulates_pointer (s : script) (pg : Page) : bool :=
  match s with
  | inspect_page => false
  | qa_test_angle => existsb (fun n => is_some (bounding_box_ans pg n)) (seq 0 6)
  | test_angle_measurement | test_angle_qa | test_angle_simple =>
      is_some (bounding_box_ans pg 0)
  end.

(** The runs in which a script takes a screenshot. *)
Definition captures_screenshot (s : script) (pg : Page) : bool :=
  match s with
  | inspect_page => false
  | qa_test_angle | test_angle_simple => true
  | test_angle_qa => is_some (bounding_box_ans pg 0)
  | test_angle_measurement =>
      is_some (bounding_box_ans pg 0) && (count_ans pg 0 >? 0)%Z
  end.

(** *** Button locators *)

Definition lower_ascii (c : ascii) : ascii :=
  let n := nat_of_ascii c in
  if (65 <=? n)%nat && (n <=? 90)%nat then ascii_of_nat (n + 32) else c.

Fixpoint lower (s : string) : string :=
  match s with
  | EmptyString => EmptyString
  | String c rest => String (lower_ascii c) (lower rest)
  end.

(** One of the four button texts, up to letter case. *)
Definition recognizable (txt : string) : bool :=
  existsb (String.eqb (lower txt)) ["digital"; "line"; "measure"; "angle"].

Definition selector_tag (sel : selector) : option string :=
  match sel with
  | Tag t | HasText t _ | AttrContainsCI t _ _ => Some t
  | TextRegex _ => None
  end.

Definition targets_button (sel : selector) : bool :=
  match selector_tag sel with
  | Some t => String.eqb t "button"
  | None => false
  end.

(** The locator selects by one of the four texts, or by an aria-label
    that contains "angle". *)
Definition selects_by_label (sel : selector) (has_text : option string) : bool :=
  match sel with
  | HasText _ txt => recognizable txt
  | AttrContainsCI _ attr v =>
      String.eqb attr "aria-label" && String.eqb (lower v) "angle"
  | Tag _ =>
      match has_text with
      | Some txt => recognizable txt
      | None => false
      end
  | TextRegex _ => false
  end.

(** A call on a button locator selects it by label; other calls pass. *)
Definition button_by_label (e : event) : bool :=
  match event_target e with
  | Some (sel, has_text) =>
      if targets_button sel then selects_by_label sel has_text else true
  | None => true
  end.

(** A call on the bare locator [page.locator("button")]. *)
Definition bare_button (e : event) : bool :=
  match event_target e with
  | Some (Tag t, None) => String.eqb t "button"
  | _ => false
  end.

(** The two files that list every button of the page. *)
Definition lists_buttons (s : script) : bool :=
  match s with
  | inspect_page | test_angle_simple => true
  | qa_test_angle | test_angle_measurement | test_angle_qa => false
  end.

Definition locator_allowed (s : script) (e : event) : bool :=
  button_by_label e || (lists_buttons s && bare_button e).

(** [page.goto] is only ever given [url]; other calls pass. *)
Definition navigates_to (url : string) (e : event) : bool :=
  match e with
  | Goto u => String.eqb u url
  | _ => true
  end.

(** *** The tests of the angle QA flow *)

(** A line that opens a test section: "\n=== Test ...". *)
Definition is_test_header (e : event) : bool :=
  match e with
  | Print [FLit s] => String.prefix (newline ++ "=== Test ") s
  | _ => false
  end.

(** The segments a run drags on the canvas: from where the button went
    down to where it came up. *)
Fixpoint dragged (pos down : option (num * num)) (t : trace)
  : list ((num * num) * (num * num)) :=
  match t with
  | [] => []
  | MouseMove x y _ :: rest => dragged (Some (x, y)) down rest
  | MouseClick (Some p) _ :: rest => dragged (Some p) down rest
  | MouseDown :: rest => dragged pos pos rest
  | MouseUp :: rest =>
      match down, pos with
      | Some p, Some q => (p, q) :: dragged pos None rest
      | _, _ => dragged pos None rest
      end
  | _ :: rest => dragged pos down rest
  end.

(** *** Screenshots *)

(** The files a run writes, in order. *)
Definition screenshot_paths (t : trace) : list string :=
  flat_map (fun e => match e with Screenshot p _ => [p] | _ => [] end) t.

(** [s.endswith(suffix)]. *)
Definition ends_with (suffix s : string) : bool :=
  String.eqb
    (String.substring (String.length s - String.length suffix)
       (String.length suffix) s)
    suffix.

Definition tmp_png (p : string) : bool :=
  String.prefix "/tmp/" p && ends_with ".png" p.

Fixpoint distinct (l : list string) : bool :=
  match l with
  | [] => true
  | p :: rest => negb (existsb (String.eqb p) rest) && distinct rest
  end.

(** Every screenshot is a full-page one and the next call prints
    "Screenshot saved: " and its path: how [take_screenshot] works. *)
Fixpoint announced (t : trace) : bool :=
  match t with
  | [] => true
  | Screenshot p full_page :: rest =>
      match full_page, rest with
      | Some true, Print [FLit a; FLit q] :: _ =>
          String.eqb a "Screenshot saved: " && String.eqb q p
      | _, _ => false
      end && announced rest
  | _ :: rest => announced rest
  end.

(** *** The pointer button *)

(** Follow the button through a run: [Some down] at the end, [None] when a
    call finds the button in the wrong state (pressed twice, released or
    clicked while not in the state the call needs). *)
Fixpoint button_after (down : bool) (t : trace) : option bool :=
  match t with
  | [] => Some down
  | MouseDown :: rest => if down then None else button_after true rest
  | MouseUp :: rest => if down then button_after false rest else None
  | MouseClick _ _ :: rest => if down then None else button_after false rest
  | _ :: rest => button_after down rest
  end.

(** What a run does after [browser.close()]. *)
Fixpoint after_close (t : trace) : trace :=
  match t with
  | [] => []
  | BrowserClose :: rest => rest
  | _ :: rest => after_close rest
  end.

(** *** What each script drags *)

(** A drag whose ends are the box origin plus offsets. *)
Definition origin_drag (b : Box) (ox1 oy1 ox2 oy2 : Z)
  : (num * num) * (num * num) :=
  ((fadd (box_x b) (of_int ox1), fadd (box_y b) (of_int oy1)),
   (fadd (box_x b) (of_int ox2), fadd (box_y b) (of_int oy2))).

(** The two lines of the angle flow, about the canvas centre. *)
Definition left_vertical (b : Box) : (num * num) * (num * num) :=
  ((fsub (center_x b) (of_int 100), fsub (center_y b) (of_int 150)),
   (fsub (center_x b) (of_int 100), fadd (center_y b) (of_int 150))).

Definition horizontal (b : Box) : (num * num) * (num * num) :=
  ((fsub (center_x b) (of_int 200), center_y b),
   (fadd (center_x b) (of_int 200), center_y b)).

Definition option_list {A} (o : option A) : list A :=
  match o with Some a => [a] | None => [] end.

(** The segments a run of each script drags on the canvas. *)
Definition drags_of (s : script) (pg : Page) : list ((num * num) * (num * num)) :=
  match s with
  | inspect_page | test_angle_measurement => []
  | qa_test_angle =>
      option_list (option_map (fun b => origin_drag b 100 200 300 200)
                     (bounding_box_ans pg 0))
      ++ option_list (option_map (fun b => origin_drag b 200 100 200 300)
                        (bounding_box_ans pg 1))
  | test_angle_simple | test_angle_qa =>
      match bounding_box_ans pg 0 with
      | Some b => [left_vertical b; horizontal b]
      | None => []
      end
  end.

(** The numbers a run prints in lines of the form "text N text". *)
Definition counts_printed (t : trace) : list Z :=
  flat_map (fun e => match e with
                     | Print [FLit _; FInt n; FLit _] => [n]
                     | _ => []
                     end) t.

(** A click on one of the locators [.all()] returned. *)
Definition is_element_click (e : event) : bool :=
  match e with
  | Click (Nth _ _) => true
  | _ => false
  end.

(** The outcome of [test_angle_measurement] of test_angle_qa.py, read off
    the page's answer. *)
Definition qa_outcome (pg : Page) : result unit :=
  match bounding_box_ans pg 0 with
  | None => Returned tt
  | Some _ => Raised TypeError
  end.

(** The calls a guarded step of qa_test_angle.py is made of: pointer
    calls, waits and clicks on a located button. *)
Definition is_step_call (e : event) : bool :=
  is_mouse e || is_wait e || match e with Click _ => true | _ => false end.

(** How many times each script asks for the canvas bounding box. *)
Definition bounding_box_queries (s : script) : nat :=
  match s with
  | inspect_page => 0
  | qa_test_angle => 6
  | test_angle_measurement | test_angle_qa | test_angle_simple => 1
  end.

(** Run from a trace of P-events, [m] leaves a trace of P-events and, when
    it returns, a value that satisfies [Q]. *)
Definition issues_only {A} (P : event -> Prop) (m : M A) (Q : A -> Prop) : Prop :=
  forall t, Forall P t ->
    Forall P (snd (m t)) /\
    match fst (m t) with
    | Returned a => Q a
    | Raised _ => True
    end.

End Vocabulary.

(** The calls of one run of qa_test_angle.py, step by step: the pointer
    events of a step are there when that step obtained a bounding box. *)
Module QaTrace.
Section Trace.
Context {RT : Runtime}.
Variable pg : Page.

Definition canvas : locator := First (Locator (Tag "canvas") None).

(** Steps 3 and 4: drag from offset (ox1, oy1) to (ox2, oy2), then
    right-click at the start. *)
Definition drag (box : option Box) (ox1 oy1 ox2 oy2 : Z) : trace :=
  match box with
  | Some box =>
      let x1 := fadd (box_x box) (of_int ox1) in
      let y1 := fadd (box_y box) (of_int oy1) in
      let x2 := fadd (box_x box) (of_int ox2) in
      let y2 := fadd (box_y box) (of_int oy2) in
      [MouseMove x1 y1 None; MouseDown; MouseMove x2 y2 None; MouseUp;
       WaitForTimeout 300; MouseClick (Some (x1, y1)) (Some "right");
       WaitForTimeout 500]
  | None => []
  end.

(** Steps 6 to 9: one click at offset (ox, oy). *)
Definition tap (box : option Box) (ox oy : Z) (button : option string) : trace :=
  match box with
  | Some box =>
      [MouseClick (Some (fadd (box_x box) (of_int ox),
                         fadd (box_y box) (of_int oy))) button;
       WaitForTimeout 500]
  | None => []
  end.

Definition press (l : locator) (found : Z) (ms : Z) : trace :=
  if (found >? 0)%Z then [Click (First l); WaitForTimeout ms] else [].

Definition steps : trace :=
  [Launch true; NewPage; Goto "http://localhost:5176";
   WaitForLoadState "networkidle";
   Screenshot "/tmp/angle_test_1_initial.png" (Some false);
   Print [FLit "Step 1: Clicking on Digital mode button..."];
   Click (First (Locator (HasText "button" "Digital") None));
   WaitForTimeout 500;
   Print [FLit "Step 2: Selecting Line tool..."];
   Click (First (Locator (HasText "button" "Line") None));
   WaitForTimeout 300;
   Print [FLit "Step 3: Drawing first line..."];
   BoundingBox canvas]
  ++ drag (bounding_box_ans pg 0) 100 200 300 200
  ++ [Screenshot "/tmp/angle_test_2_first_line.png" (Some false);
      Print [FLit "Step 4: Drawing second line..."];
      BoundingBox canvas]
  ++ drag (bounding_box_ans pg 1) 200 100 200 300
  ++ [Screenshot "/tmp/angle_test_3_second_line.png" (Some false);
      Print [FLit "Step 5: Switching to Angle measurement tool..."];
      Count (Locator (HasText "button" "Measure") None)]
  ++ press (Locator (HasText "button" "Measure") None) (count_ans pg 0) 300
  ++ [Count (Locator (HasText "button" "Angle") None)]
  ++ press (Locator (HasText "button" "Angle") None) (count_ans pg 1) 500
  ++ [Screenshot "/tmp/angle_test_4_angle_tool.png" (Some false);
      Print [FLit "Step 6: Clicking on first line to select it..."];
      BoundingBox canvas]
  ++ tap (bounding_box_ans pg 2) 200 200 None
  ++ [Screenshot "/tmp/angle_test_5_first_selected.png" (Some false);
      Print [FLit "Step 7: Clicking on second line to complete angle measurement..."];
      BoundingBox canvas]
  ++ tap (bounding_box_ans pg 3) 200 200 None
  ++ [Screenshot "/tmp/angle_test_6_angle_measured.png" (Some false);
      Print [FLit "Step 8: Right-clicking to cancel measurement..."];
      BoundingBox canvas]
  ++ tap (bounding_box_ans pg 4) 250 250 (Some "right")
  ++ [Screenshot "/tmp/angle_test_7_after_rightclick.png" (Some false);
      Print [FLit "Step 9: Testing chaining - selecting first line again..."];
      BoundingBox canvas]
  ++ tap (bounding_box_ans pg 5) 200 200 None
  ++ [Screenshot "/tmp/angle_test_8_chaining.png" (Some false);
      Print [FLit "Step 10: Checking console logs..."];
      Evaluate "() => window.__consoleLogs || []";
      Print [FLit "Console logs: "; FJs (evaluate_ans pg 0)];
      Print [FLit (newline ++ "QA Testing Complete!")];
      Print [FLit "Screenshots saved to /tmp/"];
      BrowserClose].

End Trace.
End QaTrace.

(** * Properties *)

(** ** A logic for "every call the script issues satisfies P" *)

Section Logic.
Context {RT : Runtime}.

Lemma issues_ret {A} P (a : A) (Q : A -> Prop) :
  Q a -> issues_only P (ret a) Q.
Proof. intros Ha t Ht. split; [exact Ht | exact Ha]. Qed.

Lemma issues_raise {A} P e (Q : A -> Prop) : issues_only P (raise e) Q.
Proof. intros t Ht. split; [exact Ht | exact I]. Qed.

Lemma issues_bind {A B} P (m : M A) (f : A -> M B) Q R :
  issues_only P m Q ->
  (forall a, Q a -> issues_only P (f a) R) ->
  issues_only P (bind m f) R.
Proof.
  intros Hm Hf t Ht. unfold bind.
  destruct (Hm t Ht) as [Hs Hq].
  destruct (m t) as [[a | e] t']; simpl in *.
  - apply (Hf a Hq t' Hs).
  - split; [exact Hs | exact I].
Qed.

Lemma issues_weaken {A} P (m : M A) (Q Q' : A -> Prop) :
  issues_only P m Q -> (forall a, Q a -> Q' a) -> issues_only P m Q'.
Proof.
  intros Hm Himp t Ht. destruct (Hm t Ht) as [Hs Hq]. split; [exact Hs |].
  destruct (fst (m t)); auto.
Qed.

Lemma issues_emit P e : P e -> issues_only P (emit e) (fun _ => True).
Proof.
  intros He t Ht. split; [| exact I]. simpl.
  apply Forall_app. split; [exact Ht | constructor; [exact He | constructor]].
Qed.

Lemma issues_ask {A} P kind (ans : nat -> A) e :
  P e -> issues_only P (ask kind ans e) (fun a => exists n, a = ans n).
Proof.
  intros He t Ht. split.
  - simpl. apply Forall_app. split; [exact Ht | constructor; [exact He | constructor]].
  - simpl. eexists. reflexivity.
Qed.

Lemma issues_ask_read {A} P kind (ans : nat -> read A) e :
  P e -> issues_only P (ask_read kind ans e) (fun a => exists n, ans n = Ok a).
Proof.
  intros He t Ht. unfold ask_read.
  destruct (ans (calls kind t)) eqn:Hans; simpl; split;
    try (apply Forall_app; split; [exact Ht | constructor; [exact He | constructor]]).
  - eexists. exact Hans.
  - exact I.
Qed.

Lemma issues_try {A} P (body handler : M A) Q :
  issues_only P body Q -> issues_only P handler Q ->
  issues_only P (try_except body handler) Q.
Proof.
  intros Hb Hh t Ht. unfold try_except.
  destruct (Hb t Ht) as [Hs Hq].
  destruct (body t) as [[a | e] t']; simpl in *.
  - split; assumption.
  - apply (Hh t' Hs).
Qed.

Lemma issues_for_each {A} P (l : list A) (body : A -> M unit) :
  (forall x, In x l -> issues_only P (body x) (fun _ => True)) ->
  issues_only P (for_each l body) (fun _ => True).
Proof.
  induction l as [| x rest IH]; intros Hbody; simpl.
  - apply issues_ret. exact I.
  - eapply issues_bind.
    + apply Hbody. left. reflexivity.
    + intros _ _. apply IH. intros y Hy. apply Hbody. right. exact Hy.
Qed.

Lemma issues_run {A} P (m : M A) Q :
  issues_only P m Q -> Forall P (snd (run m)).
Proof. intros Hm. apply (Hm [] (Forall_nil P)). Qed.

End Logic.

Create HintDb api.
#[export] Hint Unfold launch new_page set_viewport_size goto wait_for_load_state
  wait_for_timeout sleep screenshot print browser_close page_click click
  mouse_move mouse_down mouse_up mouse_click mouse_click_without_point
  content evaluate count bounding_box text_content get_attribute : api.

Section LogicApi.
Context {RT : Runtime}.
Variable pg : Page.

Lemma issues_all P (l : locator) :
  P (All l) ->
  issues_only P (all pg l) (fun ls => exists n, ls = map (Nth l) (seq 0 n)).
Proof.
  intros He. unfold all. eapply issues_bind.
  - apply issues_ask. exact He.
  - intros n _. apply issues_ret. exists n. reflexivity.
Qed.

End LogicApi.

(** One step through a script: split a sequence, name the answer of a
    query, branch where the script branches. *)
Ltac script_step :=
  autounfold with api;
  lazymatch goal with
  | |- issues_only _ (bind (ask _ _ _) _) _ =>
      eapply issues_bind; [apply issues_ask | intros ? [? ?]]
  | |- issues_only _ (bind (ask_read _ _ _) _) _ =>
      eapply issues_bind; [apply issues_ask_read | intros ? [? ?]]
  | |- issues_only _ (bind (all _ _) _) _ =>
      eapply issues_bind; [apply issues_all | intros ? [? ?]]
  | |- issues_only _ (bind _ _) _ =>
      eapply issues_bind with (Q := fun _ => True); [| intros ? _]
  | |- issues_only _ (emit _) _ => apply issues_emit
  | |- issues_only _ (ret _) _ => apply issues_ret
  | |- issues_only _ (raise _) _ => apply issues_raise
  | |- issues_only _ (try_except _ _) _ => apply issues_try
  | |- issues_only _ (for_each _ _) _ => apply issues_for_each; intros ? ?
  | |- issues_only _ (match ?x with _ => _ end) _ => destruct x eqn:?
  | |- issues_only _ (let '(_, _) := ?x in _) _ => destruct x eqn:?
  end.


(** Symbolic execution of a run, one branch point at a time: bring the run
    to head normal form, find the answer it is waiting for, split on it. *)
Ltac stuck_on e :=
  lazymatch e with
  | List.map _ (List.seq _ ?n) => stuck_on n
  | match ?x with _ => _ end => stuck_on x
  | ?f _ => stuck_on_head f e
  | _ => e
  end
with stuck_on_head f e :=
  lazymatch f with
  | match ?x with _ => _ end => stuck_on x
  | ?g _ => stuck_on_head g e
  | _ => e
  end.

Ltac head_eval x :=
  eval lazy head beta iota zeta delta
    -[TestAngleMeasurement.angle_displayed Z.gtb fle py_float
      bounding_box_ans count_ans content_ans all_ans text_content_ans
      get_attribute_ans evaluate_ans List.map List.seq] in x.

Ltac norm_answer s :=
  eval cbv beta iota zeta delta
    [calls filter List.length List.app is_bounding_box is_count is_content
     is_all is_text_content is_get_attribute is_evaluate] in s.

(** The goal is [r = run ... -> G]: split on each answer the run needs
    until the run is a pair of an outcome and a trace. *)
Ltac exec_run :=
  lazymatch goal with
  | |- _ = ?x -> _ =>
      let v := head_eval x in
      lazymatch v with
      | (_, _) => change x with v; intros ->
      | _ =>
          let s := stuck_on v in
          let s' := norm_answer s in
          change x with v; change s with s'; destruct s' eqn:?;
          cbn [List.map List.seq]; exec_run
      end
  end.

Ltac run_cases m :=
  let r := fresh "r" in
  let E := fresh "E" in
  remember m as r eqn:E; revert E; exec_run.

Section Runs.
Context {RT : Runtime}.

(** qa_test_angle.py always runs to its end, and its calls are [QaTrace.steps]. *)
Lemma qa_test_angle_run pg :
  run (QaTestAngle.main pg) = (Returned tt, QaTrace.steps pg).
Proof.
  unfold run, QaTrace.steps, QaTrace.press.
  run_cases (QaTestAngle.main pg []).
  all: reflexivity.
Qed.

End Runs.

(** ** Waiting *)

Section Waiting.
Context {RT : Runtime}.

(** C3. In every script, on every page, each waiting call is [time.sleep]
    or [page.wait_for_timeout] with one of the literal durations of the
    source, or [page.wait_for_load_state("networkidle")].  The run is one
    sequence of calls issued one after the other: the scripts start nothing
    that runs beside it. *)
Theorem waits_are_fixed (s : script) (pg : Page) :
  Forall fixed_wait (script_trace s pg).
Proof.
  unfold script_trace, run_script.
  destruct s; eapply issues_run with (Q := fun _ => True).
  - unfold InspectPage.main, InspectPage.describe_button.
    repeat script_step; simpl; auto 10.
  - unfold QaTestAngle.main. repeat script_step; simpl; auto 10.
  - unfold TestAngleMeasurement.main, TestAngleMeasurement.test_angle_measurement.
    repeat script_step; simpl; auto 10.
  - unfold TestAngleQa.main, TestAngleQa.test_angle_measurement,
      TestAngleQa.find_canvas_center, TestAngleQa.draw_line,
      TestAngleQa.take_screenshot.
    repeat script_step; simpl; auto 10.
  - unfold TestAngleSimple.main, TestAngleSimple.test_angle.
    repeat script_step; simpl; auto 10.
Qed.

End Waiting.

(** ** Pointer coordinates *)

Ltac origin_point :=
  left;
  refine (ex_intro _ _ (ex_intro _ _ (conj _ (conj _ (conj eq_refl eq_refl)))));
  simpl; tauto.

Ltac center_point :=
  right; split;
  first [ apply about_at
        | apply about_plus; simpl; tauto
        | apply about_minus; simpl; tauto ].

(** A pointer call of the goal takes its point from a box in the context. *)
Ltac pointer_point :=
  simpl;
  try exact I;
  repeat match goal with
         | H : TestAngleQa.ci_x _ = _ |- _ => rewrite H
         | H : TestAngleQa.ci_y _ = _ |- _ => rewrite H
         end;
  match goal with
  | H : Some ?b = bounding_box_ans _ ?n |- from_box _ _ _ =>
      exists n, b; split;
      [ symmetry; exact H | solve [origin_point | center_point] ]
  | Hb : bounding_box_ans _ ?n = Some ?b |- from_box _ _ _ =>
      exists n, b; split; [ exact Hb | solve [origin_point | center_point] ]
  end.

Section Pointer.
Context {RT : Runtime}.

(** What [find_canvas_center] returns is the centre of a box the page gave. *)
Lemma find_canvas_center_issues P pg :
  P (BoundingBox (First (Locator (Tag "canvas") None))) ->
  issues_only P (TestAngleQa.find_canvas_center pg)
    (fun o => forall ci, o = Some ci ->
       exists n b, bounding_box_ans pg n = Some b /\
         TestAngleQa.ci_x ci = center_x b /\ TestAngleQa.ci_y ci = center_y b).
Proof.
  intros He. unfold TestAngleQa.find_canvas_center, bounding_box.
  eapply issues_bind; [apply issues_ask; exact He |].
  intros box [n Hn]. destruct box as [b |]; apply issues_ret.
  - intros ci Hci. injection Hci as <-. exists n, b.
    split; [symmetry; exact Hn | split; reflexivity].
  - intros ci Hci. discriminate Hci.
Qed.

(** C6. In every script, on every page, the point of each [mouse.move] and
    of each [mouse.click] that is given one is computed from a bounding box
    the canvas locator returned in that run: the box origin plus literal
    offsets (qa_test_angle.py) or the box centre moved by literal offsets
    (the other scripts).  No pointer call carries a point that does not
    come from a box. *)
Theorem pointer_coordinates_from_bounding_box (s : script) (pg : Page) :
  Forall (pointer_from_box pg) (script_trace s pg).
Proof.
  unfold script_trace, run_script.
  destruct s; eapply issues_run with (Q := fun _ => True).
  - unfold InspectPage.main, InspectPage.describe_button.
    repeat script_step; exact I.
  - unfold QaTestAngle.main. repeat script_step; pointer_point.
  - unfold TestAngleMeasurement.main, TestAngleMeasurement.test_angle_measurement.
    repeat script_step; pointer_point.
  - unfold TestAngleQa.main, TestAngleQa.test_angle_measurement,
      TestAngleQa.draw_line, TestAngleQa.take_screenshot.
    repeat (lazymatch goal with
            | |- issues_only _ (bind (TestAngleQa.find_canvas_center _) _) _ => fail
            | _ => script_step
            end); try exact I.
    eapply issues_bind; [apply find_canvas_center_issues; exact I |].
    intros o Ho. destruct o as [ci |].
    + destruct (Ho ci eq_refl) as (n & b & Hb & Hx & Hy).
      repeat script_step; pointer_point.
    + repeat script_step; exact I.
  - unfold TestAngleSimple.main, TestAngleSimple.test_angle.
    repeat script_step; pointer_point.
Qed.

End Pointer.

(** ** Counting calls *)

(** The trace of the goal is [before] followed by its last [n] calls. *)
Ltac all_but_last n :=
  lazymatch goal with
  | |- exists before, snd (_, ?T) = _ =>
      exists (firstn (List.length T - n) T); reflexivity
  | |- exists before, (_, ?T) = _ =>
      exists (firstn (List.length T - n) T); reflexivity
  end.

Ltac step_free := intros []; cbv; intros; congruence.

Section Counting.
Context {RT : Runtime}.

Lemma calls_none (kind : event -> bool) (t : trace) :
  Forall (fun e => kind e = false) t -> calls kind t = 0%nat.
Proof.
  unfold calls. induction 1 as [| e t He _ IH]; simpl.
  - reflexivity.
  - rewrite He. exact IH.
Qed.

Lemma calls_app (kind : event -> bool) (t u : trace) :
  calls kind (t ++ u) = (calls kind t + calls kind u)%nat.
Proof. unfold calls. rewrite filter_app, length_app. reflexivity. Qed.

(** The guarded steps of qa_test_angle.py hold step calls only. *)
Lemma drag_steps (o : option Box) (a b c d : Z) :
  Forall (fun e => is_step_call e = true) (QaTrace.drag o a b c d).
Proof. destruct o; simpl; repeat constructor. Qed.

Lemma tap_steps (o : option Box) (a b : Z) (button : option string) :
  Forall (fun e => is_step_call e = true) (QaTrace.tap o a b button).
Proof. destruct o; simpl; repeat constructor. Qed.

Lemma press_steps (l : locator) (n ms : Z) :
  Forall (fun e => is_step_call e = true) (QaTrace.press l n ms).
Proof. unfold QaTrace.press. destruct (n >? 0)%Z; repeat constructor. Qed.

Lemma calls_step_free (kind : event -> bool) (t : trace) :
  (forall e, is_step_call e = true -> kind e = false) ->
  Forall (fun e => is_step_call e = true) t ->
  calls kind t = 0%nat.
Proof.
  intros Hk Ht. apply calls_none. eapply Forall_impl; [| exact Ht].
  intros e He. apply Hk. exact He.
Qed.

Lemma calls_drag kind o a b c d :
  (forall e, is_step_call e = true -> kind e = false) ->
  calls kind (QaTrace.drag o a b c d) = 0%nat.
Proof. intros Hk. apply calls_step_free; [exact Hk | apply drag_steps]. Qed.

Lemma calls_tap kind o a b button :
  (forall e, is_step_call e = true -> kind e = false) ->
  calls kind (QaTrace.tap o a b button) = 0%nat.
Proof. intros Hk. apply calls_step_free; [exact Hk | apply tap_steps]. Qed.

Lemma calls_press kind l n ms :
  (forall e, is_step_call e = true -> kind e = false) ->
  calls kind (QaTrace.press l n ms) = 0%nat.
Proof. intros Hk. apply calls_step_free; [exact Hk | apply press_steps]. Qed.

(** Each script asks for the bounding box a number of times that does not
    depend on what the page answers, and counts matches at most twice. *)
Lemma query_counts (s : script) (pg : Page) :
  calls is_bounding_box (script_trace s pg) = bounding_box_queries s /\
  (calls is_count (script_trace s pg) <= 2)%nat.
Proof.
  destruct s; unfold script_trace, run_script.
  - assert (H : Forall (fun e => is_bounding_box e = false /\ is_count e = false)
                  (snd (run (InspectPage.main pg)))).
    { eapply issues_run with (Q := fun _ => True).
      unfold InspectPage.main, InspectPage.describe_button.
      repeat script_step; simpl; auto. }
    split.
    + apply calls_none. eapply Forall_impl; [| exact H]. intros e [He _]. exact He.
    + rewrite calls_none; [lia |].
      eapply Forall_impl; [| exact H]. intros e [_ He]. exact He.
  - rewrite qa_test_angle_run. unfold QaTrace.steps, snd.
    rewrite !calls_app.
    rewrite !calls_drag, !calls_tap, !calls_press by step_free.
    split; [reflexivity | cbv; lia].
  - unfold run. run_cases (TestAngleMeasurement.main pg []).
    all: split; [reflexivity | cbv; lia].
  - unfold run. run_cases (TestAngleQa.main pg []).
    all: split; [reflexivity | cbv; lia].
  - unfold run. run_cases (TestAngleSimple.main pg []).
    all: split; [reflexivity | cbv; lia].
Qed.

End Counting.

(** ** test_angle_measurement.py *)

Section TestAngleMeasurementFacts.
Context {RT : Runtime}.

(** C9. On every page, [test_angle_measurement] of
    test_angle_measurement.py returns a flag, and the calls it has issued
    by then end with [browser.close()], which occurs nowhere before: once
    on each path, as the last call before the return (the calls of the
    automation library being taken to return). *)
Theorem browser_closed_exactly_once (pg : Page) :
  exists (flag : bool) (before : trace),
    run (TestAngleMeasurement.test_angle_measurement pg)
      = (Returned flag, before ++ [BrowserClose]) /\
    calls is_close before = 0%nat.
Proof.
  unfold run.
  run_cases (TestAngleMeasurement.test_angle_measurement pg []).
  all: eexists _, _; split; [reflexivity | reflexivity].
Qed.

(** C7. test_angle_measurement.py reports the angle as displayed exactly
    when it reaches the check (canvas and angle button found) and the
    lowercased page content contains "angle:" or the page content contains
    the degree sign; it prints the warning in exactly the other runs that
    reach the check. *)
Theorem angle_report_by_substring (pg : Page) :
  let t := snd (run (TestAngleMeasurement.test_angle_measurement pg)) in
  let c := content_ans pg 0 in
  let reached := is_some (bounding_box_ans pg 0) && (count_ans pg 0 >? 0)%Z in
  reports "✓ Angle measurement appears to be displayed" t
    = reached && (contains (lit "angle:") (py_lower c) || contains [degree_sign] c)
  /\
  reports "⚠ Angle measurement text not clearly visible in content" t
    = reached && negb (contains (lit "angle:") (py_lower c) || contains [degree_sign] c).
Proof.
  cbv zeta. unfold run.
  change (contains (lit "angle:") (py_lower (content_ans pg 0))
          || contains [degree_sign] (content_ans pg 0))
    with (TestAngleMeasurement.angle_displayed (content_ans pg 0)).
  run_cases (TestAngleMeasurement.test_angle_measurement pg []).
  all: split; reflexivity.
Qed.

(** C2. The error conditions the scripts detect with a message are the
    missing canvas box (test_angle_measurement.py, test_angle_qa.py) and
    the missing angle button (test_angle_measurement.py).  In each, once
    the failed query has answered, the script prints one line, closes the
    browser and stops: it issues no further call to the page.  Only
    [test_angle_measurement] of test_angle_measurement.py returns a flag:
    False exactly when the canvas box is missing or no angle button is
    found, True otherwise; the function of test_angle_qa.py returns None.
    No script asks again after a failure: the number of bounding-box
    queries of a script is the same on every page, and no script counts
    matches more than twice. *)
Theorem errors_print_and_flag (pg : Page) :
  let r := run (TestAngleMeasurement.test_angle_measurement pg) in
  let q := run (TestAngleQa.test_angle_measurement pg) in
  let canvas_missing := bounding_box_ans pg 0 = None in
  let no_angle_button := (count_ans pg 0 <= 0)%Z in
  (fst r = Returned false <-> canvas_missing \/ no_angle_button) /\
  (fst r = Returned true <-> ~ (canvas_missing \/ no_angle_button)) /\
  (canvas_missing ->
     (exists before,
        snd r = before ++ [BoundingBox (Locator (Tag "canvas") None);
                           Print [FLit "✗ Canvas not found"];
                           BrowserClose]) /\
     (exists before,
        q = (Returned tt,
             before ++ [BoundingBox (First (Locator (Tag "canvas") None));
                        Print [FLit "ERROR: Could not find canvas"];
                        BrowserClose]))) /\
  (~ canvas_missing -> no_angle_button ->
     exists before,
       snd r = before ++ [Count (Locator (Tag "button") (Some "angle"));
                          Print [FLit "✗ Angle tool button not found"];
                          BrowserClose]) /\
  (forall s, calls is_bounding_box (script_trace s pg) = bounding_box_queries s /\
             (calls is_count (script_trace s pg) <= 2)%nat).
Proof.
  cbv zeta. unfold run.
  split; [| split; [| split; [| split]]].
  - run_cases (TestAngleMeasurement.test_angle_measurement pg []); simpl;
      repeat match goal with
             | H : (_ >? _)%Z = _ |- _ =>
                 rewrite Z.gtb_ltb in H;
                 first [apply Z.ltb_lt in H | apply Z.ltb_ge in H]
             end;
      intuition (try discriminate; try lia).
  - run_cases (TestAngleMeasurement.test_angle_measurement pg []); simpl;
      repeat match goal with
             | H : (_ >? _)%Z = _ |- _ =>
                 rewrite Z.gtb_ltb in H;
                 first [apply Z.ltb_lt in H | apply Z.ltb_ge in H]
             end;
      intuition (try discriminate; try lia).
  - intros Hnone. split.
    + run_cases (TestAngleMeasurement.test_angle_measurement pg []);
        try discriminate Hnone.
      all_but_last 3%nat.
    + run_cases (TestAngleQa.test_angle_measurement pg []);
        try discriminate Hnone.
      all_but_last 3%nat.
  - intros Hsome Hcount.
    run_cases (TestAngleMeasurement.test_angle_measurement pg []);
      try (exfalso; apply Hsome; reflexivity);
      repeat match goal with
             | H : (_ >? _)%Z = _ |- _ =>
                 rewrite Z.gtb_ltb in H;
                 first [apply Z.ltb_lt in H | apply Z.ltb_ge in H]
             end;
      try lia.
    all_but_last 3%nat.
  - intros s. apply query_counts.
Qed.

End TestAngleMeasurementFacts.

(** ** test_angle_qa.py *)

Section TestAngleQaFacts.
Context {RT : Runtime}.

(** C10.  The check of the angle label (lines 127 to 140 of
    test_angle_qa.py, under the comment that the angle is verified to be
    acute) is never reached.  When the canvas is found the function stops
    on TypeError at [page.mouse.click()] of line 123, which passes no
    point; when it is not found the function returns before Test 2.  So
    on every page the label is never read and neither verdict line is
    printed: a label of exactly 90 degrees is not reported as acute. *)
Theorem angle_verdict_never_reached (pg : Page) :
  let r := run (TestAngleQa.test_angle_measurement pg) in
  fst r = (if is_some (bounding_box_ans pg 0)
           then Raised TypeError else Returned tt) /\
  filter is_verdict (snd r) = [] /\
  calls is_text_content (snd r) = 0%nat /\
  reports "Checking for angle label..." (snd r) = false.
Proof.
  cbv zeta. unfold run.
  run_cases (TestAngleQa.test_angle_measurement pg []).
  all: repeat split; reflexivity.
Qed.

End TestAngleQaFacts.

(** ** inspect_page.py *)

(** One button is done: the rest of the loop runs from the trace so far. *)
Ltac loop_tail IH k Hrest :=
  cbv beta iota;
  lazymatch goal with
  | |- context [for_each _ _ ?t'] =>
      let evs := fresh "evs" in
      let Hrun := fresh "Hrun" in
      let Hidx := fresh "Hidx" in
      let Hall := fresh "Hall" in
      let Htext := fresh "Htext" in
      let Hattr := fresh "Hattr" in
      destruct (IH (S k) t' Hrest) as (evs & Hrun & Hidx & Hall & Htext & Hattr);
      eexists; split;
      [refine (eq_trans Hrun _); rewrite <- !app_assoc; reflexivity |];
      split; [simpl; rewrite Hidx; reflexivity |];
      split; [repeat constructor; exact Hall |];
      unfold calls in *; simpl; split; lia
  end.

Section InspectPageFacts.
Context {RT : Runtime}.

(** The locators the loop reads are the bare button locator's elements. *)
Lemma nth_button_target (l : locator) :
  is_nth_button l = true ->
  locator_selector l = Tag "button" /\ locator_has_text l = None.
Proof.
  destruct l as [| | l' i]; try discriminate.
  destruct l' as [sel ht | |]; try discriminate.
  destruct sel as [t | | |]; try discriminate.
  destruct ht; try discriminate.
  simpl. intros H. apply String.eqb_eq in H. subst t. split; reflexivity.
Qed.

Lemma report_target (e : event) :
  is_button_report e = true ->
  event_target e = None \/ event_target e = Some (Tag "button", None).
Proof.
  destruct e; try discriminate; simpl; intros H.
  - right. destruct (nth_button_target l H) as [-> ->]. reflexivity.
  - right. apply andb_prop in H. destruct H as [H _].
    destruct (nth_button_target l H) as [-> ->]. reflexivity.
  - left. reflexivity.
Qed.

(** The loop prints one line per button, numbered in order, whatever the
    reads answer, and never raises. *)
Lemma describe_loop pg (l : list locator) :
  forall (k : nat) (t : trace),
    (forall btn, In btn l -> exists i, btn = Nth (Locator (Tag "button") None) i) ->
    exists evs,
      for_each (combine (seq k (List.length l)) l) (InspectPage.describe_button pg) t
        = (Returned tt, t ++ evs) /\
      map button_line (filter is_print evs)
        = map (fun i => Some (Z.of_nat i)) (seq k (List.length l)) /\
      Forall (fun e => is_button_report e = true) evs /\
      calls is_text_content evs = List.length l /\
      (calls is_get_attribute evs <= List.length l)%nat.
Proof.
  induction l as [| btn rest IH]; intros k t Hnth; simpl.
  - exists []. rewrite app_nil_r. repeat split; constructor.
  - destruct (Hnth btn (or_introl eq_refl)) as (i & ->).
    set (l0 := Locator (Tag "button") None) in *.
    assert (Hrest : forall b, In b rest -> exists j, b = Nth l0 j)
      by (intros b Hb; apply Hnth; right; exact Hb).
    unfold bind at 1.
    unfold InspectPage.describe_button at 1.
    unfold try_except, bind, text_content, get_attribute, ask_read, print, emit.
    destruct (text_content_ans pg (calls is_text_content t)) as [text |].
    + destruct (get_attribute_ans pg
                  (calls is_get_attribute (t ++ [TextContent (Nth l0 i)])))
        as [aria |].
      * loop_tail IH k Hrest.
      * loop_tail IH k Hrest.
    + loop_tail IH k Hrest.
Qed.

(** inspect_page.py always runs to its end: its opening, the report on the
    first twenty buttons at most, then [browser.close()]. *)
Lemma inspect_page_run pg :
  exists report,
    run (InspectPage.main pg)
      = (Returned tt, inspect_opening pg ++ report ++ [BrowserClose]) /\
    map button_line (filter is_print report)
      = map (fun i => Some (Z.of_nat i)) (seq 0 (Nat.min 20 (all_ans pg 0))) /\
    Forall (fun e => is_button_report e = true) report /\
    calls is_text_content report = Nat.min 20 (all_ans pg 0) /\
    (calls is_get_attribute report <= Nat.min 20 (all_ans pg 0))%nat.
Proof.
  set (buttons := slice_to 20 (map (Nth (Locator (Tag "button") None))
                                   (seq 0 (all_ans pg 0)))).
  assert (Hlen : List.length buttons = Nat.min 20 (all_ans pg 0)).
  { unfold buttons, slice_to. rewrite length_firstn, length_map, length_seq.
    reflexivity. }
  destruct (describe_loop pg buttons 0 (inspect_opening pg))
    as (evs & Hrun & Hidx & Hall & Htext & Hattr).
  { intros btn Hin. unfold buttons, slice_to in Hin.
    assert (Hin' : In btn (map (Nth (Locator (Tag "button") None))
                               (seq 0 (all_ans pg 0)))).
    { rewrite <- (firstn_skipn 20). apply in_or_app. left. exact Hin. }
    clear Hin. rename Hin' into Hin. apply in_map_iff in Hin.
    destruct Hin as (i & <- & _). eexists. reflexivity. }
  exists evs.
  split; [| split; [rewrite <- Hlen; exact Hidx |
                    split; [exact Hall | rewrite <- Hlen; split; assumption]]].
  unfold run.
  change (InspectPage.main pg [])
    with (bind (for_each (enumerate buttons) (InspectPage.describe_button pg))
               (fun _ => browser_close) (inspect_opening pg)).
  unfold bind, enumerate. rewrite Hrun.
  unfold browser_close, emit. rewrite <- app_assoc. reflexivity.
Qed.

(** C8. inspect_page.py prints, after its header, the first 2000
    characters of the page content at most (a prefix of the content), then
    the second header, then one line per button for the first twenty
    buttons at most, numbered from 0 in order; nothing else is printed. *)
Theorem inspect_page_output_is_truncated (pg : Page) :
  let t := snd (run (InspectPage.main pg)) in
  let shown := slice_to 2000 (content_ans pg 0) in
  exists lines,
    filter is_print t
      = [Print [FLit "=== Page Structure ==="];
         Print [FStr shown];
         Print [FLit (newline ++ "=== Buttons on page ===")]] ++ lines /\
    map button_line lines
      = map (fun i => Some (Z.of_nat i)) (seq 0 (Nat.min 20 (all_ans pg 0))) /\
    (List.length lines <= 20)%nat /\
    (List.length shown <= 2000)%nat /\
    (exists rest, content_ans pg 0 = shown ++ rest).
Proof.
  cbv zeta.
  destruct (inspect_page_run pg) as (report & Hrun & Hidx & _ & _).
  exists (filter is_print report).
  split; [| split; [exact Hidx | split; [| split]]].
  - rewrite Hrun. unfold snd, inspect_opening.
    rewrite !filter_app. simpl. rewrite app_nil_r. reflexivity.
  - rewrite <- (length_map button_line), Hidx, length_map, length_seq.
    apply Nat.le_min_l.
  - unfold slice_to. apply firstn_le_length.
  - exists (skipn 2000 (content_ans pg 0)). unfold slice_to.
    symmetry. apply firstn_skipn.
Qed.

End InspectPageFacts.

(** ** The shape of a run *)

Section Shape.
Context {RT : Runtime}.

Lemma filter_none (kind : event -> bool) (t : trace) :
  Forall (fun e => kind e = false) t -> filter kind t = [].
Proof.
  induction 1 as [| e t He _ IH]; simpl.
  - reflexivity.
  - rewrite He. exact IH.
Qed.

Lemma existsb_none (kind : event -> bool) (t : trace) :
  Forall (fun e => kind e = false) t -> existsb kind t = false.
Proof.
  induction 1 as [| e t He _ IH]; simpl.
  - reflexivity.
  - rewrite He. exact IH.
Qed.

(** A kind of call that the loop of inspect_page.py never issues. *)
Lemma not_in_report (kind : event -> bool) (report : trace) :
  (forall e, is_button_report e = true -> kind e = false) ->
  Forall (fun e => is_button_report e = true) report ->
  Forall (fun e => kind e = false) report.
Proof.
  intros Hk Hr. eapply Forall_impl; [| exact Hr]. exact Hk.
Qed.

Lemma existsb_drag_mouse o a b c d :
  existsb is_mouse (QaTrace.drag o a b c d) = is_some o.
Proof. destruct o; reflexivity. Qed.

Lemma existsb_tap_mouse o a b button :
  existsb is_mouse (QaTrace.tap o a b button) = is_some o.
Proof. destruct o; reflexivity. Qed.

Lemma existsb_press_mouse l n ms :
  existsb is_mouse (QaTrace.press l n ms) = false.
Proof. unfold QaTrace.press. destruct (n >? 0)%Z; reflexivity. Qed.

Lemma filter_step_free (kind : event -> bool) (t : trace) :
  (forall e, is_step_call e = true -> kind e = false) ->
  Forall (fun e => is_step_call e = true) t ->
  filter kind t = [].
Proof.
  intros Hk Ht. apply filter_none. eapply Forall_impl; [| exact Ht]. exact Hk.
Qed.

Lemma filter_drag kind o a b c d :
  (forall e, is_step_call e = true -> kind e = false) ->
  filter kind (QaTrace.drag o a b c d) = [].
Proof. intros Hk. apply filter_step_free; [exact Hk | apply drag_steps]. Qed.

Lemma filter_tap kind o a b button :
  (forall e, is_step_call e = true -> kind e = false) ->
  filter kind (QaTrace.tap o a b button) = [].
Proof. intros Hk. apply filter_step_free; [exact Hk | apply tap_steps]. Qed.

Lemma filter_press kind l n ms :
  (forall e, is_step_call e = true -> kind e = false) ->
  filter kind (QaTrace.press l n ms) = [].
Proof. intros Hk. apply filter_step_free; [exact Hk | apply press_steps]. Qed.

(** What every run of a script holds, and in which runs it holds pointer
    calls and screenshots. *)
Lemma run_shape (s : script) (pg : Page) :
  let t := script_trace s pg in
  hd_error t = Some (Launch (script_headless s)) /\
  filter is_goto t = [Goto (script_url s)] /\
  existsb is_locate t = true /\
  existsb locates_by_text_or_attribute t = locates_by_label s pg /\
  existsb is_print t = true /\
  existsb is_mouse t = simulates_pointer s pg /\
  existsb is_screenshot t = captures_screenshot s pg /\
  calls is_close t =
    match fst (run_script s pg) with
    | Returned _ => 1%nat
    | Raised _ => 0%nat
    end /\
  (s = test_angle_qa \/ fst (run_script s pg) = Returned tt).
Proof.
  destruct s;
    unfold script_trace, run_script, simulates_pointer, captures_screenshot,
      locates_by_label;
    cbv zeta.
  - destruct (inspect_page_run pg) as (report & Hrun & _ & Hrep & _).
    rewrite Hrun. unfold fst, snd.
    assert (Hgoto := not_in_report is_goto report
                       ltac:(intros []; cbv; intros; congruence) Hrep).
    assert (Hmouse := not_in_report is_mouse report
                       ltac:(intros []; cbv; intros; congruence) Hrep).
    assert (Hshot := not_in_report is_screenshot report
                       ltac:(intros []; cbv; intros; congruence) Hrep).
    assert (Hclose := not_in_report is_close report
                       ltac:(intros []; cbv; intros; congruence) Hrep).
    assert (Hlabel : Forall (fun e => locates_by_text_or_attribute e = false) report).
    { eapply Forall_impl; [| exact Hrep]. intros e He.
      unfold locates_by_text_or_attribute.
      destruct (report_target e He) as [-> | ->]; reflexivity. }
    repeat split.
    + rewrite !filter_app, (filter_none _ _ Hgoto). reflexivity.
    + rewrite !existsb_app, (existsb_none _ _ Hlabel). reflexivity.
    + rewrite !existsb_app, (existsb_none _ _ Hmouse). reflexivity.
    + rewrite !existsb_app, (existsb_none _ _ Hshot). reflexivity.
    + rewrite !calls_app, (calls_none _ _ Hclose). reflexivity.
    + right. reflexivity.
  - rewrite qa_test_angle_run. unfold fst, snd, QaTrace.steps.
    split; [reflexivity |].
    split.
    { rewrite !filter_app.
      rewrite !filter_drag, !filter_tap, !filter_press by step_free.
      reflexivity. }
    split; [reflexivity |].
    split; [reflexivity |].
    split; [reflexivity |].
    split.
    { rewrite !existsb_app, !existsb_drag_mouse, !existsb_tap_mouse,
        !existsb_press_mouse.
      cbv [existsb seq].
      destruct (bounding_box_ans pg 0), (bounding_box_ans pg 1),
        (bounding_box_ans pg 2), (bounding_box_ans pg 3),
        (bounding_box_ans pg 4), (bounding_box_ans pg 5); reflexivity. }
    split; [reflexivity |].
    split.
    { rewrite !calls_app.
      rewrite !calls_drag, !calls_tap, !calls_press by step_free.
      reflexivity. }
    right. reflexivity.
  - unfold run. run_cases (TestAngleMeasurement.main pg []).
    all: repeat split; right; reflexivity.
  - unfold run. run_cases (TestAngleQa.main pg []).
    all: repeat split; left; reflexivity.
  - unfold run. run_cases (TestAngleSimple.main pg []).
    all: repeat split; right; reflexivity.
Qed.

(** The one navigation of a run. *)
Lemma goto_in_trace (s : script) (pg : Page) :
  In (Goto (script_url s)) (script_trace s pg).
Proof.
  destruct (run_shape s pg) as (_ & Hgoto & _).
  apply (filter_In is_goto). rewrite Hgoto. left. reflexivity.
Qed.

End Shape.

Section CommonShape.
Context {RT : Runtime}.

Lemma existsb_calls (kind : event -> bool) (t : trace) :
  existsb kind t = negb (calls kind t =? 0)%nat.
Proof.
  unfold calls. induction t as [| e t IH]; simpl.
  - reflexivity.
  - destruct (kind e); simpl; [reflexivity | exact IH].
Qed.

(** C1, as the code has it.  Every script launches a browser first,
    navigates exactly once, to its fixed local URL, issues a locator call
    and prints, on every page.  Which runs locate by text or attribute,
    issue pointer calls and take a screenshot is given by
    [locates_by_label], [simulates_pointer] and [captures_screenshot]:
    inspect_page.py never does any of the three.  Each script other than
    test_angle_qa.py runs to its end and closes the browser exactly once,
    on every page, and the six-step shape holds of its run exactly when
    the three hold. *)
Theorem scripts_common_shape (s : script) (pg : Page) :
  let t := script_trace s pg in
  hd_error t = Some (Launch (script_headless s)) /\
  filter is_goto t = [Goto (script_url s)] /\
  existsb is_locate t = true /\
  existsb is_print t = true /\
  existsb locates_by_text_or_attribute t = locates_by_label s pg /\
  existsb is_mouse t = simulates_pointer s pg /\
  existsb is_screenshot t = captures_screenshot s pg /\
  (s = test_angle_qa \/
   (fst (run_script s pg) = Returned tt /\
    calls is_close t = 1%nat /\
    six_step_shape t =
      locates_by_label s pg && simulates_pointer s pg
      && captures_screenshot s pg)).
Proof.
  cbv zeta.
  destruct (run_shape s pg)
    as (Hhd & Hgoto & Hloc & Hlabel & Hprint & Hmouse & Hshot & Hclose & Hend).
  repeat (split; [assumption |]).
  destruct Hend as [-> | Hret]; [left; reflexivity | right].
  rewrite Hret in Hclose. repeat split; try assumption.
  unfold six_step_shape.
  rewrite Hlabel, Hmouse, Hshot, Hprint.
  rewrite (existsb_calls is_close), Hclose.
  rewrite (existsb_calls is_goto). unfold calls at 1. rewrite Hgoto.
  destruct (script_trace s pg) as [| e t]; [discriminate Hhd |].
  injection Hhd as ->. simpl.
  rewrite ?andb_true_r. reflexivity.
Qed.

End CommonShape.

(** C1 as stated fails: inspect_page.py issues no pointer call, takes no
    screenshot and locates by tag only; test_angle_measurement.py issues
    no pointer call and takes no screenshot when the canvas is missing. *)
Lemma six_step_shape_counterexample :
  six_step_shape
    (script_trace (RT := Sample.rational_runtime) inspect_page
       (Sample.app_page Sample.label_45)) = false /\
  existsb is_mouse
    (script_trace (RT := Sample.rational_runtime) inspect_page
       (Sample.app_page Sample.label_45)) = false /\
  existsb is_screenshot
    (script_trace (RT := Sample.rational_runtime) inspect_page
       (Sample.app_page Sample.label_45)) = false /\
  six_step_shape
    (script_trace (RT := Sample.rational_runtime) test_angle_measurement
       Sample.blank_page) = false /\
  existsb is_screenshot
    (script_trace (RT := Sample.rational_runtime) test_angle_measurement
       Sample.blank_page) = false.
Proof. repeat split; vm_compute; reflexivity. Qed.

(** ** Where the scripts navigate and how they locate buttons *)

(** A call of the goal is on an allowed locator: it computes, once the
    first element of a listed locator is named. *)
Ltac allowed_locator :=
  try match goal with
      | H : _ :: _ = map (Nth _) (seq 0 ?n) |- _ =>
          destruct n; [discriminate H | injection H as -> _]
      end;
  reflexivity.

Section Locators.
Context {RT : Runtime}.

(** C5, as the code has it.  Each script navigates once, to a fixed URL on
    localhost: port 5176 in qa_test_angle.py and port 5173 in the other
    four.  Every call on a button locator selects the button by one of the
    texts Digital, Line, Measure, Angle (up to letter case) or by an
    aria-label that contains "angle", except for the bare locator
    [page.locator("button")] by which inspect_page.py and
    test_angle_simple.py list every button. *)
Theorem local_urls_and_button_locators (s : script) (pg : Page) :
  let t := script_trace s pg in
  filter is_goto t = [Goto (script_url s)] /\
  String.prefix "http://localhost:" (script_url s) = true /\
  (script_url s = "http://localhost:5173" \/
   s = qa_test_angle /\ script_url s = "http://localhost:5176") /\
  Forall (fun e => locator_allowed s e = true) t.
Proof.
  cbv zeta.
  split; [apply (run_shape s pg) |].
  split; [destruct s; reflexivity |].
  split; [destruct s; auto |].
  unfold script_trace, run_script.
  destruct s.
  - destruct (inspect_page_run pg) as (report & Hrun & _ & Hrep & _).
    rewrite Hrun. unfold snd.
    apply Forall_app. split; [repeat constructor |].
    apply Forall_app. split; [| repeat constructor].
    eapply Forall_impl; [| exact Hrep]. intros e He.
    unfold locator_allowed, button_by_label, bare_button.
    destruct (report_target e He) as [-> | ->]; reflexivity.
  - eapply issues_run with (Q := fun _ => True).
    unfold QaTestAngle.main. repeat script_step; allowed_locator.
  - eapply issues_run with (Q := fun _ => True).
    unfold TestAngleMeasurement.main, TestAngleMeasurement.test_angle_measurement.
    repeat script_step; allowed_locator.
  - eapply issues_run with (Q := fun _ => True).
    unfold TestAngleQa.main, TestAngleQa.test_angle_measurement,
      TestAngleQa.find_canvas_center, TestAngleQa.draw_line,
      TestAngleQa.take_screenshot.
    repeat script_step; allowed_locator.
  - eapply issues_run with (Q := fun _ => True).
    unfold TestAngleSimple.main, TestAngleSimple.test_angle.
    repeat script_step; allowed_locator.
Qed.

End Locators.

(** C5 as stated fails: no one URL is the target of every script, and
    inspect_page.py calls the bare button locator. *)
Lemma one_url_and_label_locators_counterexample :
  ~ (exists url, forall s,
       forallb (navigates_to url)
         (script_trace (RT := Sample.rational_runtime) s Sample.blank_page)
       = true) /\
  forallb button_by_label
    (script_trace (RT := Sample.rational_runtime) inspect_page
       Sample.blank_page) = false.
Proof.
  split; [| vm_compute; reflexivity].
  intros [url Hurl].
  pose proof (Hurl inspect_page) as H1.
  pose proof (Hurl qa_test_angle) as H2.
  rewrite forallb_forall in H1, H2.
  specialize (H1 (Goto "http://localhost:5173")).
  specialize (H2 (Goto "http://localhost:5176")).
  unfold navigates_to in H1, H2.
  rewrite String.eqb_eq in H1, H2.
  assert (E1 : "http://localhost:5173" = url)
    by (apply H1; apply (goto_in_trace inspect_page)).
  assert (E2 : "http://localhost:5176" = url)
    by (apply H2; apply (goto_in_trace qa_test_angle)).
  rewrite <- E1 in E2. discriminate E2.
Qed.

(** ** The tests of the angle QA flow *)

(** C4.  The docstring of test_angle_qa.py lists four tests: intersecting
    segments, non-intersecting segments, parallel lines, chaining.  On a
    page that shows the application the flow stops on TypeError at the
    [page.mouse.click()] of line 123, the browser left open.  By then it
    has opened two sections only (intersecting segments, arc selection)
    and dragged two segments, which cross: no two segments are apart (not
    parallel and without a common point) and no two are parallel, so the
    non-intersecting and the parallel case are never set up; the page is
    never read, so no arc or angle is verified; and the chaining section
    is not reached. *)
Lemma qa_flow_misses_documented_tests :
  let pg := Sample.app_page Sample.label_45 in
  let t := script_trace (RT := Sample.rational_runtime) test_angle_qa pg in
  fst (run_script (RT := Sample.rational_runtime) test_angle_qa pg)
    = Raised TypeError /\
  existsb is_close t = false /\
  filter is_test_header t =
    [Print [FLit (newline ++ "=== Test 1: Intersecting Segments - Arc follows mouse ===")];
     Print [FLit (newline ++ "=== Test 2: Arc selection by clicking ===")]] /\
  List.length (dragged None None t) = 2%nat /\
  existsb (fun p => Sample.apart (fst p) (snd p))
    (Sample.pairs (dragged None None t)) = false /\
  existsb (fun p => Sample.parallel (fst p) (snd p))
    (Sample.pairs (dragged None None t)) = false /\
  calls is_text_content t = 0%nat /\
  calls is_content t = 0%nat.
Proof.
  cbv zeta. repeat split; vm_compute; reflexivity.
Qed.

(** ** The theorems at concrete pages *)

(** The flag of test_angle_measurement.py on a blank page, on a page with
    no angle button and on the application. *)
Lemma errors_print_and_flag_witness :
  fst (run (TestAngleMeasurement.test_angle_measurement
              (RT := Sample.rational_runtime) Sample.blank_page))
    = Returned false /\
  fst (run (TestAngleMeasurement.test_angle_measurement
              (RT := Sample.rational_runtime) Sample.no_angle_button_page))
    = Returned false /\
  fst (run (TestAngleMeasurement.test_angle_measurement
              (RT := Sample.rational_runtime) (Sample.app_page Sample.label_45)))
    = Returned true /\
  exists before,
    snd (run (TestAngleMeasurement.test_angle_measurement
                (RT := Sample.rational_runtime) Sample.blank_page))
      = before ++ [BoundingBox (Locator (Tag "canvas") None);
                   Print [FLit "✗ Canvas not found"];
                   BrowserClose].
Proof.
  split; [| split; [| split]].
  - apply (proj1 (errors_print_and_flag Sample.blank_page)).
    left. reflexivity.
  - apply (proj1 (errors_print_and_flag Sample.no_angle_button_page)).
    right. simpl. lia.
  - apply (proj1 (proj2 (errors_print_and_flag (Sample.app_page Sample.label_45)))).
    intros [H | H]; [discriminate H | simpl in H; lia].
  - apply (proj1 (proj2 (proj2 (errors_print_and_flag Sample.blank_page)))).
    reflexivity.
Defined.

(** * Further properties of the scripts *)

(** ** The string helpers *)

Section Strings.

Lemma starts_with_prefix (p s : pystr) :
  starts_with p s = true <-> exists rest, s = p ++ rest.
Proof.
  revert s. induction p as [| a p IH]; intros s; simpl.
  - split; [intros _; exists s; reflexivity | reflexivity].
  - destruct s as [| b s].
    + split; [discriminate | intros [rest H]; discriminate H].
    + rewrite andb_true_iff, N.eqb_eq, IH. split.
      * intros [-> [rest ->]]. exists rest. reflexivity.
      * intros [rest H]. injection H as -> ->. split; [reflexivity |].
        exists rest. reflexivity.
Qed.

(** X9. The test [needle in hay] of the scripts holds exactly when the
    needle occurs in the text as a run of consecutive characters. *)
Theorem contains_substring (needle hay : pystr) :
  contains needle hay = true <->
  exists before after, hay = before ++ needle ++ after.
Proof.
  induction hay as [| c hay IH].
  - simpl. rewrite orb_false_r, starts_with_prefix. split.
    + intros [rest H]. exists [], rest. exact H.
    + intros (before & after & H).
      destruct before as [| b before]; [| discriminate H].
      exists after. exact H.
  - simpl. rewrite orb_true_iff, starts_with_prefix, IH. split.
    + intros [[rest H] | (before & after & H)].
      * exists [], rest. exact H.
      * exists (c :: before), after. rewrite H. reflexivity.
    + intros (before & after & H). destruct before as [| b before].
      * left. exists after. exact H.
      * right. injection H as _ H. exists before, after. exact H.
Qed.

(** A character that occurs as a substring occurs as an element. *)
Lemma contains_single_in (c : codepoint) (s : pystr) :
  contains [c] s = true -> In c s.
Proof.
  induction s as [| x s IH]; simpl.
  - discriminate.
  - rewrite orb_true_iff, andb_true_r, N.eqb_eq.
    intros [-> | H]; [left; reflexivity | right; apply IH; exact H].
Qed.

(** X10. Removing a character with [replace(c, "")] keeps the other
    characters in order, leaves no occurrence of it and never lengthens
    the text. *)
Theorem replace_char_removes (c : codepoint) (s : pystr) :
  replace_char c [] s = filter (fun x => negb (N.eqb x c)) s /\
  contains [c] (replace_char c [] s) = false /\
  (List.length (replace_char c [] s) <= List.length s)%nat.
Proof.
  assert (Hfilter : replace_char c [] s = filter (fun x => negb (N.eqb x c)) s).
  { unfold replace_char. induction s as [| x s IH]; simpl.
    - reflexivity.
    - rewrite IH. destruct (N.eqb x c); reflexivity. }
  split; [exact Hfilter |]. split.
  - destruct (contains [c] (replace_char c [] s)) eqn:E; [| reflexivity].
    apply contains_single_in in E. rename E into Hin.
    rewrite Hfilter in Hin. apply filter_In in Hin. destruct Hin as [_ Hc].
    rewrite N.eqb_refl in Hc. discriminate Hc.
  - rewrite Hfilter. apply filter_length_le.
Qed.

End Strings.

(** ** test_angle_measurement.py as a program *)

(** The trace of the goal is [before] followed by its last [n] calls, and
    more is to be shown of [before]. *)
Ltac but_last n :=
  lazymatch goal with
  | |- exists before, snd (_, ?T) = _ /\ _ =>
      exists (firstn (List.length T - n) T); split; [reflexivity |]
  end.

Section MainBlock.
Context {RT : Runtime}.

(** X1. Run as a program, test_angle_measurement.py ends by printing one
    verdict after the browser is closed: the success line when the canvas
    and an angle button were found (the function returned True), the
    failure line otherwise; neither line is printed before. *)
Theorem main_reports_flag (pg : Page) :
  let r := run (TestAngleMeasurement.main pg) in
  let ok := is_some (bounding_box_ans pg 0) && (count_ans pg 0 >? 0)%Z in
  fst r = Returned tt /\
  fst (run (TestAngleMeasurement.test_angle_measurement pg)) = Returned ok /\
  exists before,
    snd r = before ++
      [BrowserClose;
       Print [FLit (if ok then newline ++ "✓ Test completed successfully"
                    else newline ++ "✗ Test failed")]] /\
    reports (newline ++ "✓ Test completed successfully") before = false /\
    reports (newline ++ "✗ Test failed") before = false.
Proof.
  cbv zeta. unfold run. split; [| split].
  - run_cases (TestAngleMeasurement.main pg []); reflexivity.
  - run_cases (TestAngleMeasurement.test_angle_measurement pg []); reflexivity.
  - run_cases (TestAngleMeasurement.main pg []);
      but_last 2%nat; split; reflexivity.
Qed.

End MainBlock.

(** ** test_angle_qa.py: outcomes and screenshots *)

Section QaOutcome.
Context {RT : Runtime}.

(** X2. [test_angle_measurement] of test_angle_qa.py returns only when
    the canvas is missing, the browser closed once.  When the canvas is
    found it stops on TypeError at the [page.mouse.click()] that passes no
    point: the browser is not closed, the label is not read, and neither
    the chaining test nor the closing line is reached. *)
Theorem test_angle_qa_outcome (pg : Page) :
  let r := run (TestAngleQa.test_angle_measurement pg) in
  fst r = qa_outcome pg /\
  calls is_close (snd r) =
    match qa_outcome pg with
    | Returned _ => 1%nat
    | Raised _ => 0%nat
    end /\
  calls is_text_content (snd r) = 0%nat /\
  reports (newline ++ "=== Test 3: Line Chaining ===") (snd r) = false /\
  reports (newline ++ "All tests completed!") (snd r) = false.
Proof.
  cbv zeta. unfold run, qa_outcome.
  run_cases (TestAngleQa.test_angle_measurement pg []).
  all: repeat split; reflexivity.
Qed.

(** X7. Every screenshot of test_angle_qa.py is taken by [take_screenshot]:
    a full-page screenshot to a file named /tmp/angle_test_....png, with
    the line "Screenshot saved: " and that path printed next. *)
Theorem screenshots_are_announced (pg : Page) :
  let t := snd (run (TestAngleQa.test_angle_measurement pg)) in
  announced t = true /\
  forallb (fun p => String.prefix "/tmp/angle_test_" p && ends_with ".png" p)
    (screenshot_paths t) = true.
Proof.
  cbv zeta. unfold run.
  run_cases (TestAngleQa.test_angle_measurement pg []).
  all: split; reflexivity.
Qed.

End QaOutcome.

(** ** test_angle_simple.py *)

Section Simple.
Context {RT : Runtime}.

(** X11. test_angle_simple.py prints the three numbers of matches the page
    reported, in order, and clicks an element of a listed locator only for
    the Angle buttons: the first of them, exactly when there is one. *)
Theorem simple_counts_and_first_angle_button (pg : Page) :
  let t := snd (run (TestAngleSimple.test_angle pg)) in
  counts_printed t = map Z.of_nat [all_ans pg 0; all_ans pg 1; all_ans pg 2] /\
  filter is_element_click t =
    (if (0 <? all_ans pg 2)%nat
     then [Click (Nth (Locator (HasText "button" "Angle") None) 0)]
     else []) /\
  reports "Clicked angle button" t = (0 <? all_ans pg 2)%nat.
Proof.
  cbv zeta. unfold run.
  run_cases (TestAngleSimple.test_angle pg []).
  all: unfold counts_printed, snd; rewrite ?flat_map_app; simpl;
    rewrite ?length_map, ?length_seq; repeat split; reflexivity.
Qed.

End Simple.

(** ** Properties of every run of every script *)

Section EveryRun.
Context {RT : Runtime}.

Lemma screenshot_paths_app (t u : trace) :
  screenshot_paths (t ++ u) = screenshot_paths t ++ screenshot_paths u.
Proof. apply flat_map_app. Qed.

Lemma screenshot_paths_none (t : trace) :
  Forall (fun e => is_screenshot e = false) t -> screenshot_paths t = [].
Proof.
  induction 1 as [| e t He _ IH]; [reflexivity |].
  destruct e; try exact IH. discriminate He.
Qed.

Lemma button_after_app (down : bool) (t u : trace) :
  button_after down (t ++ u) =
    match button_after down t with
    | Some down' => button_after down' u
    | None => None
    end.
Proof.
  revert down. induction t as [| e t IH]; intros down; simpl; [reflexivity |].
  destruct e; try apply IH; destruct down; try reflexivity; apply IH.
Qed.

Lemma button_after_none (down : bool) (t : trace) :
  Forall (fun e => is_mouse e = false) t -> button_after down t = Some down.
Proof.
  induction 1 as [| e t He _ IH]; simpl; [reflexivity |].
  destruct e; try exact IH; discriminate He.
Qed.

Lemma after_close_app (t u : trace) :
  Forall (fun e => is_close e = false) t ->
  after_close (t ++ u) = after_close u.
Proof.
  induction 1 as [| e t He _ IH]; simpl; [reflexivity |].
  destruct e; try exact IH. discriminate He.
Qed.

Lemma dragged_none pos down (t : trace) :
  Forall (fun e => is_mouse e = false) t -> dragged pos down t = [].
Proof.
  induction 1 as [| e t He _ IH]; simpl; [reflexivity |].
  destruct e; try exact IH; discriminate He.
Qed.

Lemma dragged_app_none pos down (t u : trace) :
  Forall (fun e => is_mouse e = false) t ->
  dragged pos down (t ++ u) = dragged pos down u.
Proof.
  induction 1 as [| e t He _ IH]; simpl; [reflexivity |].
  destruct e; try exact IH; discriminate He.
Qed.

(** The guarded steps of qa_test_angle.py take no screenshot, leave the
    button up and do not close the browser. *)
Lemma step_calls_no_screenshot (t : trace) :
  Forall (fun e => is_step_call e = true) t -> screenshot_paths t = [].
Proof.
  intros H. apply screenshot_paths_none. eapply Forall_impl; [| exact H].
  intros []; cbv; intros; congruence.
Qed.

Lemma step_calls_no_close (t : trace) :
  Forall (fun e => is_step_call e = true) t ->
  Forall (fun e => is_close e = false) t.
Proof.
  intros H. eapply Forall_impl; [| exact H].
  intros []; cbv; intros; congruence.
Qed.

Lemma button_after_drag o a b c d :
  button_after false (QaTrace.drag o a b c d) = Some false.
Proof. destruct o; reflexivity. Qed.

Lemma button_after_tap o a b button :
  button_after false (QaTrace.tap o a b button) = Some false.
Proof. destruct o; reflexivity. Qed.

Lemma button_after_press l n ms :
  button_after false (QaTrace.press l n ms) = Some false.
Proof. unfold QaTrace.press. destruct (n >? 0)%Z; reflexivity. Qed.

(** X3. In every run of every script the screenshots go to files under
    /tmp/ named ....png, and no two screenshots of a run go to the same
    file. *)
Theorem screenshots_distinct_in_tmp (s : script) (pg : Page) :
  let paths := screenshot_paths (script_trace s pg) in
  distinct paths = true /\ forallb tmp_png paths = true.
Proof.
  cbv zeta. destruct s; unfold script_trace, run_script.
  - destruct (inspect_page_run pg) as (report & Hrun & _ & Hrep & _).
    rewrite Hrun. unfold snd.
    rewrite !screenshot_paths_app.
    rewrite (screenshot_paths_none report).
    + split; reflexivity.
    + eapply Forall_impl; [| exact Hrep]. intros []; cbv; intros; congruence.
  - rewrite qa_test_angle_run. unfold snd, QaTrace.steps.
    rewrite !screenshot_paths_app.
    rewrite !(step_calls_no_screenshot (QaTrace.drag _ _ _ _ _)) by apply drag_steps.
    rewrite !(step_calls_no_screenshot (QaTrace.tap _ _ _ _)) by apply tap_steps.
    rewrite !(step_calls_no_screenshot (QaTrace.press _ _ _)) by apply press_steps.
    split; reflexivity.
  - unfold run. run_cases (TestAngleMeasurement.main pg []).
    all: split; reflexivity.
  - unfold run. run_cases (TestAngleQa.main pg []).
    all: split; reflexivity.
  - unfold run. run_cases (TestAngleSimple.main pg []).
    all: split; reflexivity.
Qed.

(** X5. In every run of every script the pointer button is pressed only
    when it is up, released only when it is down, clicked only when it is
    up, and it is up when the run stops. *)
Theorem pointer_button_discipline (s : script) (pg : Page) :
  button_after false (script_trace s pg) = Some false.
Proof.
  destruct s; unfold script_trace, run_script.
  - destruct (inspect_page_run pg) as (report & Hrun & _ & Hrep & _).
    rewrite Hrun. unfold snd.
    rewrite button_after_app.
    rewrite (button_after_none false (inspect_opening pg)) by repeat constructor.
    rewrite button_after_app.
    rewrite (button_after_none false report); [reflexivity |].
    eapply Forall_impl; [| exact Hrep]. intros []; cbv; intros; congruence.
  - rewrite qa_test_angle_run. unfold snd, QaTrace.steps.
    repeat (rewrite button_after_app;
            first [ rewrite button_after_drag
                  | rewrite button_after_tap
                  | rewrite button_after_press
                  | rewrite button_after_none by repeat constructor ];
            cbv beta iota).
    reflexivity.
  - unfold run. run_cases (TestAngleMeasurement.main pg []); reflexivity.
  - unfold run. run_cases (TestAngleQa.main pg []); reflexivity.
  - unfold run. run_cases (TestAngleSimple.main pg []); reflexivity.
Qed.

(** X6. No script calls the page after [browser.close()]: whatever follows
    the close in a run is printing, and at most one line. *)
Theorem nothing_but_print_after_close (s : script) (pg : Page) :
  let rest := after_close (script_trace s pg) in
  forallb is_print rest = true /\ (List.length rest <= 1)%nat.
Proof.
  cbv zeta. destruct s; unfold script_trace, run_script.
  - destruct (inspect_page_run pg) as (report & Hrun & _ & Hrep & _).
    rewrite Hrun. unfold snd.
    rewrite after_close_app by repeat constructor.
    rewrite after_close_app.
    + split; [reflexivity | simpl; lia].
    + eapply Forall_impl; [| exact Hrep]. intros []; cbv; intros; congruence.
  - rewrite qa_test_angle_run. unfold snd, QaTrace.steps.
    repeat (rewrite after_close_app by
              first [ apply step_calls_no_close;
                      first [apply drag_steps | apply tap_steps | apply press_steps]
                    | repeat constructor ]).
    split; [reflexivity | simpl; lia].
  - unfold run. run_cases (TestAngleMeasurement.main pg []).
    all: split; [reflexivity | simpl; lia].
  - unfold run. run_cases (TestAngleQa.main pg []).
    all: split; [reflexivity | simpl; lia].
  - unfold run. run_cases (TestAngleSimple.main pg []).
    all: split; [reflexivity | simpl; lia].
Qed.

End EveryRun.

(** ** What the scripts drag *)

Section Drags.
Context {RT : Runtime}.

Lemma dragged_drag pos o a b c d (u : trace) :
  exists pos',
    dragged pos None (QaTrace.drag o a b c d ++ u) =
      option_list (option_map (fun bx => origin_drag bx a b c d) o)
      ++ dragged pos' None u.
Proof. destruct o; simpl; eexists; reflexivity. Qed.

Lemma dragged_tap pos o a b button (u : trace) :
  exists pos', dragged pos None (QaTrace.tap o a b button ++ u) = dragged pos' None u.
Proof. destruct o; simpl; eexists; reflexivity. Qed.

Lemma dragged_press pos l n ms (u : trace) :
  dragged pos None (QaTrace.press l n ms ++ u) = dragged pos None u.
Proof. unfold QaTrace.press. destruct (n >? 0)%Z; reflexivity. Qed.

(** X12. The segments each script drags on the canvas, on every page:
    inspect_page.py and test_angle_measurement.py drag none (the latter
    draws with clicks); qa_test_angle.py drags its two lines, each when
    its step obtained a box; test_angle_simple.py and test_angle_qa.py
    drag the same left vertical and horizontal lines about the canvas
    centre when the canvas is found, and nothing else. *)
Theorem what_each_script_drags (s : script) (pg : Page) :
  dragged None None (script_trace s pg) = drags_of s pg.
Proof.
  destruct s; unfold script_trace, run_script, drags_of.
  - destruct (inspect_page_run pg) as (report & Hrun & _ & Hrep & _).
    rewrite Hrun. unfold snd.
    rewrite dragged_app_none by repeat constructor.
    apply dragged_none. apply Forall_app. split; [| repeat constructor].
    eapply Forall_impl; [| exact Hrep]. intros []; cbv; intros; congruence.
  - rewrite qa_test_angle_run. unfold snd, QaTrace.steps.
    rewrite dragged_app_none by repeat constructor.
    match goal with
    | |- dragged ?pos None (QaTrace.drag ?o ?a ?b ?c ?d ++ ?u) = _ =>
        destruct (dragged_drag pos o a b c d u) as [p1 ->]
    end.
    f_equal.
    rewrite dragged_app_none by repeat constructor.
    match goal with
    | |- dragged ?pos None (QaTrace.drag ?o ?a ?b ?c ?d ++ ?u) = _ =>
        destruct (dragged_drag pos o a b c d u) as [p2 ->]
    end.
    rewrite <- (app_nil_r (option_list _)) at 2. f_equal.
    rewrite dragged_app_none by repeat constructor.
    rewrite dragged_press.
    rewrite dragged_app_none by repeat constructor.
    rewrite dragged_press.
    repeat (rewrite dragged_app_none by repeat constructor;
            match goal with
            | |- dragged ?pos None (QaTrace.tap ?o ?a ?b ?btn ++ ?u) = _ =>
                let p := fresh "p" in
                destruct (dragged_tap pos o a b btn u) as [p ->]
            end).
    apply dragged_none. repeat constructor.
  - unfold run. run_cases (TestAngleMeasurement.main pg []); reflexivity.
  - unfold run. run_cases (TestAngleQa.main pg []); reflexivity.
  - unfold run. run_cases (TestAngleSimple.main pg []); reflexivity.
Qed.

End Drags.

(** ** qa_test_angle.py and inspect_page.py never give up *)

Section Robust.
Context {RT : Runtime}.

(** X4. qa_test_angle.py runs to its end on every page, and whatever the
    page answers it saves the same eight screenshots in the same order
    and prints the same lines, the console logs apart: a step whose
    canvas box or button is missing is skipped in silence. *)
Theorem qa_test_angle_always_completes (pg : Page) :
  let r := run (QaTestAngle.main pg) in
  fst r = Returned tt /\
  screenshot_paths (snd r) =
    ["/tmp/angle_test_1_initial.png"; "/tmp/angle_test_2_first_line.png";
     "/tmp/angle_test_3_second_line.png"; "/tmp/angle_test_4_angle_tool.png";
     "/tmp/angle_test_5_first_selected.png";
     "/tmp/angle_test_6_angle_measured.png";
     "/tmp/angle_test_7_after_rightclick.png"; "/tmp/angle_test_8_chaining.png"] /\
  filter is_print (snd r) =
    [Print [FLit "Step 1: Clicking on Digital mode button..."];
     Print [FLit "Step 2: Selecting Line tool..."];
     Print [FLit "Step 3: Drawing first line..."];
     Print [FLit "Step 4: Drawing second line..."];
     Print [FLit "Step 5: Switching to Angle measurement tool..."];
     Print [FLit "Step 6: Clicking on first line to select it..."];
     Print [FLit "Step 7: Clicking on second line to complete angle measurement..."];
     Print [FLit "Step 8: Right-clicking to cancel measurement..."];
     Print [FLit "Step 9: Testing chaining - selecting first line again..."];
     Print [FLit "Step 10: Checking console logs..."];
     Print [FLit "Console logs: "; FJs (evaluate_ans pg 0)];
     Print [FLit (newline ++ "QA Testing Complete!")];
     Print [FLit "Screenshots saved to /tmp/"]].
Proof.
  cbv zeta. rewrite qa_test_angle_run. unfold fst, snd, QaTrace.steps.
  split; [reflexivity |]. split.
  - rewrite !screenshot_paths_app.
    rewrite !(step_calls_no_screenshot (QaTrace.drag _ _ _ _ _)) by apply drag_steps.
    rewrite !(step_calls_no_screenshot (QaTrace.tap _ _ _ _)) by apply tap_steps.
    rewrite !(step_calls_no_screenshot (QaTrace.press _ _ _)) by apply press_steps.
    reflexivity.
  - rewrite !filter_app.
    rewrite !filter_drag, !filter_tap, !filter_press by step_free.
    reflexivity.
Qed.

(** X8. inspect_page.py runs to its end whatever the reads of the buttons
    answer: it lists the buttons once, reads the page content once, reads
    the text of each listed button once and its aria-label at most once. *)
Theorem inspect_page_reads (pg : Page) :
  let r := run (InspectPage.main pg) in
  let listed := Nat.min 20 (all_ans pg 0) in
  fst r = Returned tt /\
  calls is_all (snd r) = 1%nat /\
  calls is_content (snd r) = 1%nat /\
  calls is_text_content (snd r) = listed /\
  (calls is_get_attribute (snd r) <= listed)%nat.
Proof.
  cbv zeta.
  destruct (inspect_page_run pg) as (report & Hrun & _ & Hrep & Htext & Hattr).
  rewrite Hrun. unfold fst, snd. rewrite !calls_app.
  assert (Hall : calls is_all report = 0%nat).
  { apply calls_none. eapply Forall_impl; [| exact Hrep].
    intros []; cbv; intros; congruence. }
  assert (Hcontent : calls is_content report = 0%nat).
  { apply calls_none. eapply Forall_impl; [| exact Hrep].
    intros []; cbv; intros; congruence. }
  set (listed := Nat.min 20 (all_ans pg 0)) in *. clearbody listed.
  unfold inspect_opening, calls in *. simpl.
  repeat split; try reflexivity; lia.
Qed.

End Robust.
